(** * Channel-Tr: the channel tracking bot (bot.py)

    A shallow embedding of the reconciliation engine of [bot.py]: the
    [channels] table and the three SQL statements that write it, the
    gateway wrapper [get_channel_info], the notifier
    [send_admin_notification], the leave/join event handler, the bulk
    range command and one cycle of [poll_channels].

    Modelling conventions.
    - The SQLite table is a finite map from the primary key [id] to the
      remaining columns.  A statement names the columns it assigns, as
      the SQL text of the source does; a column that an INSERT does not
      name takes its declared default.
    - Everything outside the process (Telegram, the wall clock) is an
      oracle indexed by a tick counter that every external call
      advances, so that two calls with the same arguments may answer
      differently.  Every external call, every executed statement and
      every sleep is appended to a trace.
    - Python exceptions are an outcome of the computation;
      [try]/[except] is a combinator.  The recursion of
      [get_channel_info] is driven by fuel.
    - Timestamps are whole seconds (exact arithmetic stands for the
      floats of [time.time()]); [sqlite3.Error] is not modelled: the
      database is available and every statement executes.
    - The event loop runs one coroutine at a time; interleaving of the
      poll with event handlers at [await] points is not modelled.
    - The commands that only read the table ([/list_channels],
      [/status]), the single [/add] command and the start-up code of
      [main] are left out.

    The file has three parts: the data model and the program, the
    scenarios used as concrete inputs, and the properties C1-C10 with
    the lemmas they rest on. *)

From Stdlib Require Import ZArith QArith String Ascii List Sorted Lia.
From stdpp Require Import base gmap sets list strings pretty.
Import ListNotations.

Local Open Scope string_scope.
Local Open Scope list_scope.
Local Open Scope Z_scope.

(** ** The channels table *)

(** Columns of [channels] other than the primary key [id]
    (CREATE TABLE, bot.py lines 27-36). *)
Record row := mkRow {
  r_title : option string;        (* title TEXT *)
  r_access_hash : option Z;       (* access_hash INTEGER *)
  r_link : option string;         (* link TEXT *)
  r_subscribers : Z;              (* subscribers INTEGER DEFAULT 0 *)
  r_last_checked : Z              (* last_checked REAL DEFAULT 0 *)
}.

Inductive column :=
  ColTitle | ColAccessHash | ColLink | ColSubscribers | ColLastChecked.

Definition column_eqb (a b : column) : bool :=
  match a, b with
  | ColTitle, ColTitle | ColAccessHash, ColAccessHash | ColLink, ColLink
  | ColSubscribers, ColSubscribers | ColLastChecked, ColLastChecked => true
  | _, _ => false
  end.

(** A column together with the value bound to it in a statement. *)
Inductive assignment :=
  | SetTitle (v : option string)
  | SetAccessHash (v : option Z)
  | SetLink (v : option string)
  | SetSubscribers (v : Z)
  | SetLastChecked (v : Z).

Definition assigned_column (a : assignment) : column :=
  match a with
  | SetTitle _ => ColTitle
  | SetAccessHash _ => ColAccessHash
  | SetLink _ => ColLink
  | SetSubscribers _ => ColSubscribers
  | SetLastChecked _ => ColLastChecked
  end.

Definition apply_assignment (r : row) (a : assignment) : row :=
  match a with
  | SetTitle v => mkRow v (r_access_hash r) (r_link r) (r_subscribers r) (r_last_checked r)
  | SetAccessHash v => mkRow (r_title r) v (r_link r) (r_subscribers r) (r_last_checked r)
  | SetLink v => mkRow (r_title r) (r_access_hash r) v (r_subscribers r) (r_last_checked r)
  | SetSubscribers v => mkRow (r_title r) (r_access_hash r) (r_link r) v (r_last_checked r)
  | SetLastChecked v => mkRow (r_title r) (r_access_hash r) (r_link r) (r_subscribers r) v
  end.

Definition apply_assignments (r : row) (l : list assignment) : row :=
  fold_left apply_assignment l r.

(** The row an INSERT starts from: NULL where the table declares no
    default, [0] for [subscribers] and [last_checked]. *)
Definition default_row : row := mkRow None None None 0 0.

(** The three statements of the source that write the table. *)
Inductive statement :=
  | InsertOrReplace (id : Z) (cols : list assignment)
  | Update (cols : list assignment) (where_id : Z)
  | Delete (where_id : Z).

(** Columns a statement names (apart from the key). *)
Definition written_columns (s : statement) : list column :=
  match s with
  | InsertOrReplace _ cols => map assigned_column cols
  | Update cols _ => map assigned_column cols
  | Delete _ => []
  end.

Definition writes (c : column) (s : statement) : bool :=
  existsb (column_eqb c) (written_columns s).

(** Executing a statement: the new table and [cursor.rowcount]. *)
Definition execute (s : statement) (t : gmap Z row) : gmap Z row * Z :=
  match s with
  | InsertOrReplace id cols => (<[id := apply_assignments default_row cols]> t, 1)
  | Update cols id =>
      match t !! id with
      | Some r => (<[id := apply_assignments r cols]> t, 1)
      | None => (t, 0)
      end
  | Delete id =>
      match t !! id with
      | Some _ => (delete id t, 1)
      | None => (t, 0)
      end
  end.

(** A fetched row, as the tuple [(id, title, access_hash, link,
    subscribers, last_checked)]: [c[0]] is [fst c], [c[4]] is
    [r_subscribers (snd c)], [c[5]] is [r_last_checked (snd c)]. *)
Abbreviation channel_row := (Z * row)%type.

(** ** The platform: entities, exceptions, channel info *)

(** What [client.get_entity] and [client.get_dialogs] hand back.
    [e_is_channel] is [isinstance(entity, Channel)]. *)
Record entity := mkEntity {
  e_is_channel : bool;
  e_id : Z;
  e_title : string;
  e_access_hash : Z;
  e_username : option string
}.

(** The argument of [get_channel_info]: an integer id or an entity. *)
Inductive peer :=
  | PeerId (id : Z)
  | PeerEntity (e : entity).

(** The exceptions the source distinguishes; [OtherError msg] is any
    other exception, with [str(e) = msg]. *)
Inductive exn :=
  | FloodWaitError (seconds : Z)
  | PeerIdInvalidError
  | ValueError
  | UserNotParticipantError
  | ChannelPrivateError
  | ChatAdminRequiredError
  | KeyError (key : string)
  | OtherError (msg : string).

(** The dictionary [get_channel_info] returns: the success dictionary
    (lines 130-137) or an error dictionary, which has the keys [id],
    [title], [access_hash], [link], [error] and no [subscribers]. *)
Inductive channel_info :=
  | Info (id : Z) (title : string) (access_hash : Z) (link : string)
         (subscribers : Z) (ent : entity)
  | ErrorInfo (id : peer) (title : string) (error : string).

(** ** Configuration, oracles, world *)

(** Values fixed outside bot.py: [config.py] is not part of the source
    tree, and the text of a library exception is Telethon's. *)
Record config := mkConfig {
  ADMIN_ID : Z;
  POLLING_INTERVAL : Z;
  library_text : exn -> string
}.

(** The answers of the outside world.  The first argument is the tick at
    which the call is made. *)
Record env := mkEnv {
  get_entity_at : nat -> peer -> exn + entity;
  (* GetFullChannelRequest: [Some n] when [full_chat] has a
     [participants_count] attribute *)
  get_full_channel_at : nat -> entity -> exn + option Z;
  get_dialogs_at : nat -> exn + list entity;
  get_me_at : nat -> exn + Z;
  (* send_message, respond, edit: [None] when the call returns *)
  deliver_at : nat -> option exn;
  clock_at : nat -> Z
}.

Inductive event :=
  | EvGetEntity (p : peer)
  | EvGetFullChannel (e : entity)
  | EvGetDialogs
  | EvGetMe
  | EvSleep (seconds : Q)
  | EvSendMessage (to : Z) (text : string)
  | EvRespond (text : string)
  | EvEdit (text : string)
  | EvExecute (s : statement).

Record world := mkWorld {
  db : gmap Z row;
  tick : nat;
  trace : list event
}.

(** An external call: one tick, one trace entry. *)
Definition call (ev : event) (w : world) : world :=
  mkWorld (db w) (S (tick w)) (trace w ++ [ev]).

(** ** Computations *)

Inductive outcome (A : Type) :=
  | Ret (a : A)
  | Raise (e : exn)
  | OutOfFuel.
Arguments Ret {A} a.
Arguments Raise {A} e.
Arguments OutOfFuel {A}.

Definition M (A : Type) : Type := world -> outcome A * world.

Definition ret {A} (a : A) : M A := fun w => (Ret a, w).

Definition raise {A} (e : exn) : M A := fun w => (Raise e, w).

Definition bind {A B} (m : M A) (k : A -> M B) : M B :=
  fun w =>
    match m w with
    | (Ret a, w') => k a w'
    | (Raise e, w') => (Raise e, w')
    | (OutOfFuel, w') => (OutOfFuel, w')
    end.

(** [try: m  except Exception as e: h e]. *)
Definition try_except {A} (m : M A) (h : exn -> M A) : M A :=
  fun w =>
    match m w with
    | (Raise e, w') => h e w'
    | r => r
    end.

Declare Scope bot_scope.
Delimit Scope bot_scope with bot.
Notation "x <- m ;; k" := (bind m (fun x => k))
  (at level 20, m at level 99, k at level 200, only parsing) : bot_scope.
Notation "m ;; k" := (bind m (fun _ => k))
  (at level 100, k at level 200, only parsing, right associativity) : bot_scope.
Local Open Scope bot_scope.

Definition when (b : bool) (m : M unit) : M unit := if b then m else ret tt.

(** [for x in l: body x]. *)
Fixpoint for_each {A} (l : list A) (body : A -> M unit) : M unit :=
  match l with
  | [] => ret tt
  | x :: l' => body x ;; for_each l' body
  end.

(** A loop that carries a local variable from one iteration to the next. *)
Fixpoint for_fold {A S} (l : list A) (s : S) (body : S -> A -> M S) : M S :=
  match l with
  | [] => ret s
  | x :: l' => s' <- body s x ;; for_fold l' s' body
  end.

(** [enumerate(l)]. *)
Fixpoint enumerate_from {A} (i : Z) (l : list A) : list (Z * A) :=
  match l with
  | [] => []
  | x :: l' => (i, x) :: enumerate_from (i + 1) l'
  end.
Definition enumerate {A} (l : list A) : list (Z * A) := enumerate_from 0 l.

(** [range(a, b)]. *)
Definition range (a b : Z) : list Z := seqZ a (b - a).

(** ** Message texts *)

Definition NL : string := String (ascii_of_nat 10) EmptyString.

(** The non-ASCII prefixes of the message literals, byte for byte as
    they stand in bot.py. *)
Definition utf8 (codes : list nat) : string :=
  string_of_list_ascii (map ascii_of_nat codes).
Definition ROBOT : string := utf8 [195; 176; 197; 184; 194; 164; 226; 128; 147]%nat.
Definition PEOPLE : string := utf8 [195; 176; 197; 184; 226; 128; 152; 194; 165]%nat.
Definition ARROW : string := utf8 [195; 162; 226; 128; 160; 226; 128; 153]%nat.
Definition DELTA : string := utf8 [195; 142; 226; 128; 157]%nat.
Definition HOURGLASS : string := utf8 [195; 162; 194; 143; 194; 179]%nat.
Definition CHECK : string := utf8 [195; 162; 197; 147; 226; 128; 166]%nat.
Definition CROSS : string := utf8 [195; 162; 194; 157; 197; 146]%nat.

(** [str(n)] for an integer. *)
Definition str (n : Z) : string := pretty n.

(** A nullable TEXT column inside an f-string. *)
Definition str_text (o : option string) : string :=
  match o with
  | Some s => s
  | None => "None"
  end.

(** Lines 191-197. *)
Definition msg_added (title : string) (id : Z) (subscribers : Z) (link : string) : string :=
  ROBOT +:+ " Added to new channel!" +:+ NL +:+
  "Title: " +:+ title +:+ NL +:+
  "ID: " +:+ str id +:+ NL +:+
  "Subscribers: " +:+ str subscribers +:+ NL +:+
  "Link: " +:+ link.

(** Lines 207-213. *)
Definition msg_left (channel_id : Z) (channel_data : option channel_row) : string :=
  let notification_msg := ROBOT +:+ " Removed from channel!" +:+ NL +:+ "ID: " +:+ str channel_id in
  match channel_data with
  | Some c =>
      notification_msg +:+
      (NL +:+ "Title: " +:+ str_text (r_title (snd c)) +:+ NL +:+
       "Subscribers: " +:+ str (r_subscribers (snd c)) +:+ NL +:+
       "Link: " +:+ str_text (r_link (snd c)))
  | None => notification_msg
  end.

(** Lines 396-398. *)
Definition msg_detected (title : string) (subscribers : Z) : string :=
  ROBOT +:+ " New channel detected!" +:+ NL +:+
  "Title: " +:+ title +:+ NL +:+
  "Subscribers: " +:+ str subscribers.

(** Lines 406-408. *)
Definition msg_removed (channel_data : channel_row) : string :=
  ROBOT +:+ " Removed from channel!" +:+ NL +:+
  "Title: " +:+ str_text (r_title (snd channel_data)) +:+ NL +:+
  "Last subscribers: " +:+ str (r_subscribers (snd channel_data)).

(** Lines 428-431. *)
Definition msg_change (channel : channel_row) (subscribers : Z) : string :=
  PEOPLE +:+ " Subscriber change!" +:+ NL +:+
  str_text (r_title (snd channel)) +:+ NL +:+
  "Old: " +:+ str (r_subscribers (snd channel)) +:+ " " +:+ ARROW +:+ " New: " +:+ str subscribers +:+ NL +:+
  DELTA +:+ ": " +:+ str (subscribers - r_subscribers (snd channel)).

(** Lines 314-315. *)
Definition msg_range_start (total_channels : Z) : string :=
  HOURGLASS +:+ " Processing " +:+ str total_channels +:+ " channels..." +:+ NL +:+
  "0% completed (0/" +:+ str total_channels +:+ ")".

(** Lines 343-345. *)
Definition msg_range_progress (total_channels percent i added_count : Z) : string :=
  HOURGLASS +:+ " Processing " +:+ str total_channels +:+ " channels..." +:+ NL +:+
  str percent +:+ "% completed (" +:+ str (i + 1) +:+ "/" +:+ str total_channels +:+ ")" +:+ NL +:+
  CHECK +:+ " Added: " +:+ str added_count.

(** Lines 353-355. *)
Definition msg_range_complete (total_channels added_count : Z) : string :=
  CHECK +:+ " Range processing complete!" +:+ NL +:+
  "Total processed: " +:+ str total_channels +:+ NL +:+
  "Channels added: " +:+ str added_count.

(** [s] occurs in [t]. *)
Definition contains (t s : string) : Prop :=
  exists pre post : string, t = pre +:+ s +:+ post.

(** ** Truthiness and dictionary access *)

(** [not channel_info.get('error')]: the success dictionary has no
    [error] key; an empty error string is falsy as well. *)
Definition usable (ci : channel_info) : bool :=
  match ci with
  | Info _ _ _ _ _ _ => true
  | ErrorInfo _ _ error => if decide (error = "") then true else false
  end.

(** [channel_info['subscribers']]. *)
Definition subscribers_of (ci : channel_info) : M Z :=
  match ci with
  | Info _ _ _ _ subscribers _ => ret subscribers
  | ErrorInfo _ _ _ => raise (KeyError "subscribers")
  end.

(** The five arguments [channel_info['id']], ..., [channel_info['subscribers']]
    of a call of [add_channel_to_db]; the last lookup fails on an error
    dictionary. *)
Definition add_arguments (ci : channel_info) : M (Z * string * Z * string * Z) :=
  match ci with
  | Info id title access_hash link subscribers _ =>
      ret (id, title, access_hash, link, subscribers)
  | ErrorInfo _ _ _ => raise (KeyError "subscribers")
  end.

(** [{c[0]: c for c in db_channels}]: a later row wins. *)
Definition dict_by_id (db_channels : list channel_row) : gmap Z channel_row :=
  fold_left (fun m c => <[fst c := c]> m) db_channels ∅.

(** The test of line 413, [now - c[5] > 86400], for one clock reading. *)
Definition stale (now : Z) (c : channel_row) : bool :=
  now - r_last_checked (snd c) >? 86400.

(** ** Reading a trace *)

(** What a run from [w] to [w'] appended to the trace. *)
Definition events_since (w w' : world) : list event :=
  drop (length (trace w)) (trace w').

(** The statements executed, in order. *)
Definition executed (evs : list event) : list statement :=
  flat_map (fun ev => match ev with EvExecute s => [s] | _ => [] end) evs.

(** The texts handed to [client.send_message], in order. *)
Definition notified (evs : list event) : list string :=
  flat_map (fun ev => match ev with EvSendMessage _ text => [text] | _ => [] end) evs.

(** The sleeps, in order. *)
Definition slept (evs : list event) : list Q :=
  flat_map (fun ev => match ev with EvSleep d => [d] | _ => [] end) evs.

(** The peers handed to [client.get_entity], in order. *)
Definition fetched (evs : list event) : list peer :=
  flat_map (fun ev => match ev with EvGetEntity p => [p] | _ => [] end) evs.

(** For each sleep of a trace, the number of [get_entity] calls made
    before it, counting from [count]. *)
Fixpoint fetches_before_sleeps (count : nat) (evs : list event) : list nat :=
  match evs with
  | [] => []
  | EvGetEntity _ :: rest => fetches_before_sleeps (S count) rest
  | EvSleep _ :: rest => count :: fetches_before_sleeps count rest
  | _ :: rest => fetches_before_sleeps count rest
  end.

(** [s] occurs in [t], decided by scanning [t]. *)
Fixpoint occurs (s t : string) : bool :=
  String.prefix s t ||
  match t with
  | EmptyString => false
  | String _ t' => occurs s t'
  end.

(** The attributes read from a chat event (Telethon's [ChatAction.Event]). *)
Record chat_action := mkChatAction {
  ev_user_id : Z;
  ev_user_added : bool;
  ev_user_joined : bool;
  ev_user_left : bool;
  ev_user_kicked : bool;
  ev_is_channel : bool;
  ev_chat_id : Z
}.

(** ** The program *)

Section Bot.

Context (cfg : config) (E : env).

(** [int((i + 1) / total_channels * 100)] of line 341 is computed in
    floating point; the progress percentage is left abstract. *)
Variable percent_completed : Z -> Z -> Z.

(** *** Primitive effects *)

Definition external {A} (ev : event) (answer : exn + A) : M A :=
  fun w =>
    match answer with
    | inl e => (Raise e, call ev w)
    | inr a => (Ret a, call ev w)
    end.

Definition client_get_entity (p : peer) : M entity :=
  fun w => external (EvGetEntity p) (get_entity_at E (tick w) p) w.

Definition client_get_full_channel (e : entity) : M (option Z) :=
  fun w => external (EvGetFullChannel e) (get_full_channel_at E (tick w) e) w.

Definition client_get_dialogs : M (list entity) :=
  fun w => external EvGetDialogs (get_dialogs_at E (tick w)) w.

Definition client_get_me : M Z :=
  fun w => external EvGetMe (get_me_at E (tick w)) w.

Definition deliver (ev : event) : M unit :=
  fun w =>
    match deliver_at E (tick w) with
    | Some e => (Raise e, call ev w)
    | None => (Ret tt, call ev w)
    end.

Definition client_send_message (to : Z) (text : string) : M unit :=
  deliver (EvSendMessage to text).
Definition event_respond (text : string) : M unit := deliver (EvRespond text).
Definition progress_msg_edit (text : string) : M unit := deliver (EvEdit text).

Definition asyncio_sleep (seconds : Q) : M unit :=
  fun w => (Ret tt, mkWorld (db w) (tick w) (trace w ++ [EvSleep seconds])).

Definition time_time : M Z :=
  fun w => (Ret (clock_at E (tick w)), mkWorld (db w) (S (tick w)) (trace w)).

Definition cursor_execute (s : statement) : M Z :=
  fun w =>
    let '(t, rowcount) := execute s (db w) in
    (Ret rowcount, mkWorld t (tick w) (trace w ++ [EvExecute s])).

(** *** Database functions (lines 41-101) *)

Definition add_channel_to_db (channel_id : Z) (title : string) (access_hash : Z)
    (link : string) (subscribers : Z) : M bool :=
  rowcount <- cursor_execute
    (InsertOrReplace channel_id
       [SetTitle (Some title); SetAccessHash (Some access_hash);
        SetLink (Some link); SetSubscribers subscribers]) ;;
  ret (rowcount >? 0).

Definition remove_channel_from_db (channel_id : Z) : M bool :=
  rowcount <- cursor_execute (Delete channel_id) ;;
  ret (rowcount >? 0).

Definition get_all_channels_from_db : M (list channel_row) :=
  fun w => (Ret (map_to_list (db w)), w).

Definition update_channel_subscribers (channel_id : Z) (subscribers : Z) : M bool :=
  now <- time_time ;;
  rowcount <- cursor_execute
    (Update [SetSubscribers subscribers; SetLastChecked now] channel_id) ;;
  ret (rowcount >? 0).

(** *** Helper functions (lines 105-170) *)

Fixpoint get_channel_info (fuel : nat) (peer : peer) : M (option channel_info) :=
  match fuel with
  | O => fun w => (OutOfFuel, w)
  | S fuel' =>
      try_except
        (entity <- client_get_entity peer ;;
         if e_is_channel entity then
           let channel_id := e_id entity in
           let title := e_title entity in
           let access_hash := e_access_hash entity in
           let link := "https://t.me/c/" +:+ str channel_id in
           let link :=
             match e_username entity with
             | Some username =>
                 if decide (username = "") then link else "https://t.me/" +:+ username
             | None => link
             end in
           subscribers <-
             try_except
               (full_chat <- client_get_full_channel entity ;;
                ret (match full_chat with
                     | Some participants_count => participants_count
                     | None => 0
                     end))
               (fun _ => ret 0) ;;
           ret (Some (Info channel_id title access_hash link subscribers entity))
         else ret None)
        (fun e =>
           match e with
           | PeerIdInvalidError | ValueError =>
               ret (Some (ErrorInfo peer "Unknown (Invalid ID)" "Invalid Peer ID"))
           | UserNotParticipantError =>
               ret (Some (ErrorInfo peer "Unknown (Not Participant)" "UserNotParticipantError"))
           | ChannelPrivateError =>
               ret (Some (ErrorInfo peer "Unknown (Private Channel)" "ChannelPrivateError"))
           | ChatAdminRequiredError =>
               ret (Some (ErrorInfo peer "Unknown (Admin Rights Required)" "ChatAdminRequiredError"))
           | FloodWaitError seconds =>
               asyncio_sleep (inject_Z seconds) ;;
               get_channel_info fuel' peer
           | KeyError key =>
               ret (Some (ErrorInfo peer "Unknown (Error)" ("'" +:+ key +:+ "'")))
           | OtherError msg =>
               ret (Some (ErrorInfo peer "Unknown (Error)" msg))
           end)
  end.

Definition send_admin_notification (message : string) : M unit :=
  try_except
    (client_send_message (ADMIN_ID cfg) message)
    (fun e =>
       match e with
       | FloodWaitError seconds =>
           asyncio_sleep (inject_Z seconds) ;;
           client_send_message (ADMIN_ID cfg) message
       | _ => ret tt
       end).

(** *** Event handler (lines 174-214) *)

Definition handle_chat_action (fuel : nat) (event : chat_action) : M unit :=
  me0 <- client_get_me ;;
  if ev_user_id event =? me0 then
    me <- client_get_me ;;
    if ev_user_id event =? me then
      if ev_user_added event || ev_user_joined event then
        if ev_is_channel event then
          channel_info <- get_channel_info fuel (PeerId (ev_chat_id event)) ;;
          match channel_info with
          | Some ci =>
              if usable ci then
                arguments <- add_arguments ci ;;
                let '(id, title, access_hash, link, subscribers) := arguments in
                added <- add_channel_to_db id title access_hash link subscribers ;;
                when added
                  (send_admin_notification (msg_added title id subscribers link))
              else ret tt
          | None => ret tt
          end
        else ret tt
      else if ev_user_left event || ev_user_kicked event then
        if ev_is_channel event then
          let channel_id := ev_chat_id event in
          channels <- get_all_channels_from_db ;;
          let channel_data := List.find (fun c => fst c =? channel_id) channels in
          removed <- remove_channel_from_db channel_id ;;
          when removed (send_admin_notification (msg_left channel_id channel_data))
        else ret tt
      else ret tt
    else ret tt
  else ret tt.

(** *** Range command (lines 298-359), after the two ids are parsed *)

Definition add_range_step (fuel : nat) (total_channels : Z) (added_count : Z)
    (item : Z * Z) : M Z :=
  let '(i, channel_id) := item in
  if channel_id =? ADMIN_ID cfg then ret added_count   (* continue *)
  else
    added_count <-
      try_except
        (channel_info <- get_channel_info fuel (PeerId channel_id) ;;
         match channel_info with
         | Some ci =>
             if usable ci then
               arguments <- add_arguments ci ;;
               let '(id, title, access_hash, link, subscribers) := arguments in
               added <- add_channel_to_db id title access_hash link subscribers ;;
               ret (if added then added_count + 1 else added_count)
             else ret added_count
         | None => ret added_count
         end)
        (fun e =>
           match e with
           | FloodWaitError seconds =>
               asyncio_sleep (inject_Z seconds) ;; ret added_count
           | _ => ret added_count
           end) ;;
    when ((i mod 50 =? 0) || (i =? total_channels - 1))
      (progress_msg_edit
         (msg_range_progress total_channels (percent_completed i total_channels)
            i added_count)) ;;
    when (i mod 10 =? 0) (asyncio_sleep (1 # 2)) ;;
    ret added_count.

Definition exn_text (e : exn) : string :=
  match e with
  | KeyError key => "'" +:+ key +:+ "'"
  | OtherError msg => msg
  | _ => library_text cfg e
  end.

Definition add_range_command (fuel : nat) (start_id end_id : Z) : M unit :=
  try_except
    (let '(start_id, end_id) :=
       if start_id >? end_id then (end_id, start_id) else (start_id, end_id) in
     let total_channels := end_id - start_id + 1 in
     event_respond (msg_range_start total_channels) ;;
     added_count <-
       for_fold (enumerate (range start_id (end_id + 1))) 0
         (add_range_step fuel total_channels) ;;
     event_respond (msg_range_complete total_channels added_count))
    (fun e => event_respond (CROSS +:+ " Error: " +:+ exn_text e)).

(** *** Polling (lines 363-449) *)

(** Lines 371-380: the ids of the live channels, the stored ids, and
    the two differences. *)
Definition current_channels_of (dialogs : list entity) : gset Z :=
  list_to_set (map e_id (List.filter e_is_channel dialogs)).

Definition db_ids_of (db_channels : list channel_row) : gset Z :=
  list_to_set (map fst db_channels).

Definition new_channels_of (dialogs : list entity) (db_channels : list channel_row) : gset Z :=
  current_channels_of dialogs ∖ db_ids_of db_channels.

Definition removed_channels_of (dialogs : list entity) (db_channels : list channel_row) : gset Z :=
  db_ids_of db_channels ∖ current_channels_of dialogs.

(** Lines 383-399, the body of the loop over [new_channels]. *)
Definition process_new (fuel : nat) (dialogs : list entity) (channel_id : Z) : M unit :=
  match List.find (fun d => e_id d =? channel_id) dialogs with
  | Some entity =>
      channel_info <- get_channel_info fuel (PeerEntity entity) ;;
      match channel_info with
      | Some ci =>
          if usable ci then
            arguments <- add_arguments ci ;;
            let '(id, title, access_hash, link, subscribers) := arguments in
            add_channel_to_db id title access_hash link subscribers ;;
            send_admin_notification (msg_detected title subscribers)
          else ret tt
      | None => ret tt
      end
  | None => ret tt
  end.

(** Lines 402-409, the body of the loop over [removed_channels]. *)
Definition process_removed (db_map : gmap Z channel_row) (channel_id : Z) : M unit :=
  match db_map !! channel_id with
  | Some channel_data =>
      removed <- remove_channel_from_db channel_id ;;
      when removed (send_admin_notification (msg_removed channel_data))
  | None => ret tt
  end.

(** Lines 374-409: membership reconciliation against the dialogs. *)
Definition reconcile_membership (fuel : nat) (dialogs : list entity) : M unit :=
  db_channels <- get_all_channels_from_db ;;
  let db_map := dict_by_id db_channels in
  let new_channels := new_channels_of dialogs db_channels in
  let removed_channels := removed_channels_of dialogs db_channels in
  for_each (elements new_channels) (process_new fuel dialogs) ;;
  for_each (elements removed_channels) (process_removed db_map).

(** Line 413: [[c for c in db_channels if time.time() - c[5] > 86400]];
    the clock is read once per row. *)
Fixpoint channels_to_update_of (db_channels : list channel_row) : M (list channel_row) :=
  match db_channels with
  | [] => ret []
  | c :: rest =>
      now <- time_time ;;
      selected <- channels_to_update_of rest ;;
      ret (if stale now c then c :: selected else selected)
  end.

(** Lines 418-440, the body of the loop over [channels_to_update]. *)
Definition refresh_one (fuel : nat) (item : Z * channel_row) : M unit :=
  let '(idx, channel) := item in
  try_except
    (channel_info <- get_channel_info fuel (PeerId (fst channel)) ;;
     match channel_info with
     | Some ci =>
         if usable ci then
           subscribers <- subscribers_of ci ;;
           when (Z.abs (subscribers - r_subscribers (snd channel)) >? 50)
             (update_channel_subscribers (fst channel) subscribers ;;
              when (Z.abs (subscribers - r_subscribers (snd channel)) >? 100)
                (send_admin_notification (msg_change channel subscribers))) ;;
           when (idx mod 10 =? 0) (asyncio_sleep (inject_Z 2))
         else ret tt
     | None => ret tt
     end)
    (fun e =>
       match e with
       | FloodWaitError seconds => asyncio_sleep (inject_Z seconds)
       | _ => ret tt
       end).

(** Lines 412-440: refresh of the stale subscriber counts. *)
Definition refresh_subscribers (fuel : nat) : M unit :=
  db_channels <- get_all_channels_from_db ;;
  channels_to_update <- channels_to_update_of db_channels ;;
  for_each (enumerate channels_to_update) (refresh_one fuel).

(** One turn of the [while True] of [poll_channels]. *)
Definition poll_cycle (fuel : nat) : M unit :=
  try_except
    (dialogs <- client_get_dialogs ;;
     reconcile_membership fuel dialogs ;;
     refresh_subscribers fuel)
    (fun e =>
       match e with
       | FloodWaitError seconds => asyncio_sleep (inject_Z seconds)
       | _ => ret tt
       end) ;;
  asyncio_sleep (inject_Z (POLLING_INTERVAL cfg)).

(** The first [cycles] turns of [poll_channels]; the loop itself never
    returns. *)
Fixpoint poll_channels (cycles fuel : nat) : M unit :=
  match cycles with
  | O => ret tt
  | S cycles' => poll_cycle fuel ;; poll_channels cycles' fuel
  end.

End Bot.

(** ** Closed forms of one attempt of [get_channel_info] *)

(** Lines 117-119. *)
Definition link_of (entity : entity) : string :=
  match e_username entity with
  | Some username =>
      if decide (username = "") then "https://t.me/c/" +:+ str (e_id entity)
      else "https://t.me/" +:+ username
  | None => "https://t.me/c/" +:+ str (e_id entity)
  end.

(** Lines 122-128: the count read from the answer of
    GetFullChannelRequest, [0] when the request raises or the attribute
    is missing. *)
Definition count_of (answer : exn + option Z) : Z :=
  match answer with
  | inr (Some participants_count) => participants_count
  | _ => 0
  end.

(** Lines 141-152 and 157-159: the error dictionary for an exception
    other than FloodWaitError. *)
Definition error_info (peer : peer) (e : exn) : channel_info :=
  match e with
  | PeerIdInvalidError | ValueError => ErrorInfo peer "Unknown (Invalid ID)" "Invalid Peer ID"
  | UserNotParticipantError =>
      ErrorInfo peer "Unknown (Not Participant)" "UserNotParticipantError"
  | ChannelPrivateError => ErrorInfo peer "Unknown (Private Channel)" "ChannelPrivateError"
  | ChatAdminRequiredError =>
      ErrorInfo peer "Unknown (Admin Rights Required)" "ChatAdminRequiredError"
  | KeyError key => ErrorInfo peer "Unknown (Error)" ("'" +:+ key +:+ "'")
  | OtherError msg => ErrorInfo peer "Unknown (Error)" msg
  | FloodWaitError _ => ErrorInfo peer "" ""
  end.

(** The exceptions read as "not accessible": invalid reference, bot not
    a participant, channel private, admin rights required. *)
Definition not_accessible (e : exn) : bool :=
  match e with
  | PeerIdInvalidError | ValueError | UserNotParticipantError
  | ChannelPrivateError | ChatAdminRequiredError => true
  | _ => false
  end.

(** The row [add_channel_to_db] stores for a fetched channel. *)
Definition row_of (entity : entity) (subscribers : Z) : row :=
  mkRow (Some (e_title entity)) (Some (e_access_hash entity)) (Some (link_of entity))
    subscribers 0.

(** The world after [asyncio.sleep(seconds)]. *)
Definition asleep (seconds : Q) (w : world) : world :=
  mkWorld (db w) (tick w) (trace w ++ [EvSleep seconds]).

(** The rows line 413 keeps when the first clock reading is taken at
    tick [t]. *)
Fixpoint selection (E : env) (t : nat) (db_channels : list channel_row) : list channel_row :=
  match db_channels with
  | [] => []
  | c :: rest =>
      if stale (clock_at E t) c then c :: selection E (S t) rest
      else selection E (S t) rest
  end.

(** ** Scenarios *)

Module Scenario.

Definition cfg : config := mkConfig 999 300 (fun _ => "library error").

Definition channel (id : Z) (title : string) : entity :=
  mkEntity true id title 77 None.

(** A world that tracks channel 5, last checked at time 1000. *)
Definition tracked : world :=
  mkWorld {[ 5 := mkRow (Some "X") (Some 77) (Some "https://t.me/c/5") 200 1000 ]} 0 [].

(** Every id is a channel titled X with [count] subscribers, the
    clock stands at [now], messages are delivered. *)
Definition steady (count now : Z) : env :=
  mkEnv
    (fun _ p =>
       match p with
       | PeerId id => inr (channel id "X")
       | PeerEntity e => inr e
       end)
    (fun _ _ => inr (Some count))
    (fun _ => inr [])
    (fun _ => inr 1)
    (fun _ => None)
    (fun _ => now).



(** No channel can be reached. *)
Definition private (now : Z) : env :=
  mkEnv
    (fun _ _ => inl ChannelPrivateError)
    (fun _ _ => inr None)
    (fun _ => inr [])
    (fun _ => inr 1)
    (fun _ => None)
    (fun _ => now).

(** Eleven tracked channels, never checked, 10 subscribers each. *)
Definition eleven : world :=
  mkWorld
    (list_to_map
       (map (fun id => (id, mkRow (Some "X") (Some 77) None 10 0)) (seqZ 1 11)))
    0 [].

(** As [steady], except that channel 102 is private. *)
Definition without_102 (count now : Z) : env :=
  mkEnv
    (fun _ p =>
       match p with
       | PeerId id => if id =? 102 then inl ChannelPrivateError else inr (channel id "X")
       | PeerEntity e => inr e
       end)
    (fun _ _ => inr (Some count))
    (fun _ => inr [])
    (fun _ => inr 1)
    (fun _ => None)
    (fun _ => now).

(** As [steady], except that the call made at tick 0 finds the
    channel private. *)
Definition flaky (count now : Z) : env :=
  mkEnv
    (fun t p =>
       if (t =? 0)%nat then inl ChannelPrivateError
       else match p with
            | PeerId id => inr (channel id "X")
            | PeerEntity e => inr e
            end)
    (fun _ _ => inr (Some count))
    (fun _ => inr [])
    (fun _ => inr 1)
    (fun _ => None)
    (fun _ => now).

(** The bot is a member of channel 5, which is tracked, and of
    channel 7, which is not. *)
Definition two_dialogs : list entity := [channel 5 "X"; channel 7 "N"].

(** As [steady], with channel 5 as the only dialog. *)
Definition member_of_5 (count now : Z) : env :=
  mkEnv
    (fun _ p =>
       match p with
       | PeerId id => inr (channel id "X")
       | PeerEntity e => inr e
       end)
    (fun _ _ => inr (Some count))
    (fun _ => inr [channel 5 "X"])
    (fun _ => inr 1)
    (fun _ => None)
    (fun _ => now).

(** The bot (user 1) has left channel 5. *)
Definition left_5 : chat_action := mkChatAction 1 false false true false true 5.

(** An exact stand-in for the progress percentage. *)
Definition percent (i total_channels : Z) : Z := (i + 1) * 100 / total_channels.

Definition now : Z := 2000000.

(** Two stored rows, one second past the cutoff and one second short
    of it. *)
Definition old_row : channel_row := (1, mkRow (Some "A") None None 10 (now - 86401)).
Definition young_row : channel_row := (2, mkRow (Some "B") None None 10 (now - 86399)).

End Scenario.

(** ** The commands (lines 218-296) *)

Definition INFO_ICON : string :=
  utf8 [195; 162; 226; 128; 158; 194; 185; 195; 175; 194; 184; 194; 143]%nat.


(** [sorted(channels, key=lambda x: x[4], reverse=True)].  Python's sort
    is stable, also under [reverse=True]: rows with equal counts keep
    their order.  Placing each row, from the last to the first, in front
    of the first row whose count is not larger gives that order. *)
Fixpoint insert_by_subscribers (c : channel_row) (l : list channel_row) : list channel_row :=
  match l with
  | [] => [c]
  | d :: l' =>
      if r_subscribers (snd d) <=? r_subscribers (snd c) then c :: d :: l'
      else d :: insert_by_subscribers c l'
  end.

Definition sorted_by_subscribers (channels : list channel_row) : list channel_row :=
  fold_right insert_by_subscribers [] channels.





(** Lines 280-286. *)
Definition msg_channel_added (title : string) (id : Z) (subscribers : Z) (link : string)
  : string :=
  CHECK +:+ " Channel added!" +:+ NL +:+
  "Title: " +:+ title +:+ NL +:+
  "ID: " +:+ str id +:+ NL +:+
  "Subscribers: " +:+ str subscribers +:+ NL +:+
  "Link: " +:+ link.

(** [channel_info.get('error', 'Unknown error') if channel_info else
    'Invalid channel']. *)
Definition failure_reason (channel_info : option channel_info) : string :=
  match channel_info with
  | Some (ErrorInfo _ _ error) => error
  | Some (Info _ _ _ _ _ _) => "Unknown error"
  | None => "Invalid channel"
  end.

Section Commands.

Context (cfg : config) (E : env).

(** [hasattr(entity, 'join')] is a fact about Telethon's classes, and
    [client(entity.join())] is one more request, of which the source
    only uses whether it raises: both are parameters.  The request takes
    a tick; the trace has no entry for it. *)
Variable has_join : entity -> bool.
Variable join_at : nat -> option exn.

Definition client_join : M unit :=
  fun w =>
    match join_at (tick w) with
    | Some e => (Raise e, mkWorld (db w) (S (tick w)) (trace w))
    | None => (Ret tt, mkWorld (db w) (S (tick w)) (trace w))
    end.



(** Lines 257-296, after the id is parsed. *)
Definition add_channel_command (fuel : nat) (channel_id : Z) : M unit :=
  try_except
    (event_respond E ("Adding channel ID: `" +:+ str channel_id +:+ "`...") ;;
     channel_info <- get_channel_info E fuel (PeerId channel_id) ;;
     response <-
       match channel_info with
       | Some ci =>
           if usable ci then
             match ci with
             | Info _ _ _ _ _ entity =>
                 when (has_join entity) (try_except client_join (fun _ => ret tt))
             | ErrorInfo _ _ _ => ret tt   (* no 'entity' key *)
             end ;;
             arguments <- add_arguments ci ;;
             let '(id, title, access_hash, link, subscribers) := arguments in
             added <- add_channel_to_db id title access_hash link subscribers ;;
             ret (if added then msg_channel_added title id subscribers link
                  else INFO_ICON +:+ " Channel `" +:+ str channel_id +:+ "` already tracked.")
           else ret (CROSS +:+ " Failed to add channel: " +:+ failure_reason channel_info)
       | None => ret (CROSS +:+ " Failed to add channel: " +:+ failure_reason channel_info)
       end ;;
     event_respond E response)
    (fun e => event_respond E (CROSS +:+ " Error: " +:+ exn_text cfg e)).

End Commands.

(** Lines 323-337, the [try] block of the loop of the range command,
    as it stands in [add_range_step]. *)
Definition range_attempt (E : env) (fuel : nat) (added_count channel_id : Z) : M Z :=
  try_except
    (channel_info <- get_channel_info E fuel (PeerId channel_id) ;;
     match channel_info with
     | Some ci =>
         if usable ci then
           arguments <- add_arguments ci ;;
           let '(id, title, access_hash, link, subscribers) := arguments in
           added <- add_channel_to_db id title access_hash link subscribers ;;
           ret (if added then added_count + 1 else added_count)
         else ret added_count
     | None => ret added_count
     end)
    (fun e =>
       match e with
       | FloodWaitError seconds =>
           asyncio_sleep (inject_Z seconds) ;; ret added_count
       | _ => ret added_count
       end).

(** ** What a computation may do *)

(** Every run of [m] appends only events that satisfy [P] and takes the
    table to one related to it by [R]. *)
Definition frames {A} (P : event -> Prop) (R : gmap Z row -> gmap Z row -> Prop)
    (m : M A) : Prop :=
  forall w, exists evs,
    trace (snd (m w)) = trace w ++ evs /\ Forall P evs /\ R (db w) (db (snd (m w))).

(** No exception leaves [m]. *)
Definition never_raises {A} (m : M A) : Prop :=
  forall w e, fst (m w) <> Raise e.

(** The events of a fetch of [p]. *)
Definition fetch_event (p : peer) (ev : event) : Prop :=
  match ev with
  | EvGetEntity q => q = p
  | EvGetFullChannel _ | EvSleep _ => True
  | _ => False
  end.

(** The events of the range command over [lo, hi]: lookups of ids of
    the range other than [admin], count requests, INSERT OR REPLACE
    statements, progress and completion messages, sleeps. *)
Definition range_event (lo hi admin : Z) (ev : event) : Prop :=
  match ev with
  | EvGetEntity (PeerId id) => lo <= id <= hi /\ id <> admin
  | EvExecute (InsertOrReplace _ _) => True
  | EvGetFullChannel _ | EvSleep _ | EvRespond _ | EvEdit _ => True
  | _ => False
  end.

(** The events of a subscriber refresh that starts from the table [t]:
    lookups by id and UPDATEs of count and [last_checked], both for ids
    stored in [t], count requests, notifications, sleeps. *)
Definition refresh_event (t : gmap Z row) (ev : event) : Prop :=
  match ev with
  | EvGetEntity (PeerId id) => is_Some (t !! id)
  | EvExecute (Update [SetSubscribers _; SetLastChecked _] id) => is_Some (t !! id)
  | EvGetFullChannel _ | EvSleep _ | EvSendMessage _ _ => True
  | _ => False
  end.

(** The events of a reconciliation of the table [t] against [dialogs]:
    lookups of dialogs whose id is live and not stored, DELETEs of ids
    that are stored and not live, INSERT OR REPLACE statements, count
    requests, notifications, sleeps. *)
Definition reconcile_event (dialogs : list entity) (t : gmap Z row) (ev : event) : Prop :=
  match ev with
  | EvGetEntity (PeerEntity d) =>
      In d dialogs /\ e_id d ∈ current_channels_of dialogs /\ t !! e_id d = None
  | EvExecute (Delete id) => is_Some (t !! id) /\ id ∉ current_channels_of dialogs
  | EvExecute (InsertOrReplace _ _) => True
  | EvGetFullChannel _ | EvSleep _ | EvSendMessage _ _ => True
  | _ => False
  end.

(** The table keeps its keys and, under each key, title, access hash
    and link. *)
Definition same_channels (t t' : gmap Z row) : Prop :=
  forall id,
    match t !! id, t' !! id with
    | Some r, Some r' =>
        r_title r' = r_title r /\ r_access_hash r' = r_access_hash r /\ r_link r' = r_link r
    | None, None => True
    | _, _ => False
    end.

(** No row is lost. *)
Definition keeps_rows (t t' : gmap Z row) : Prop :=
  forall id, is_Some (t !! id) -> is_Some (t' !! id).

(** The order of the list of [/list_channels]: [d] has no more
    subscribers than [c]. *)
Definition no_fewer (c d : channel_row) : Prop :=
  r_subscribers (snd d) <= r_subscribers (snd c).

(** The rows with [k] subscribers. *)
Definition with_count (k : Z) (c : channel_row) : bool :=
  r_subscribers (snd c) =? k.

(** The events of [/add] for [channel_id]: lookups of that id, count
    requests, INSERT OR REPLACE statements, responses, sleeps. *)
Definition add_event (channel_id : Z) (ev : event) : Prop :=
  match ev with
  | EvGetEntity p => p = PeerId channel_id
  | EvExecute (InsertOrReplace _ _) => True
  | EvGetFullChannel _ | EvSleep _ | EvRespond _ => True
  | _ => False
  end.

(** The events of the chat event handler for an event in [chat_id]:
    calls of [get_me], lookups of [chat_id], count requests, INSERT OR
    REPLACE statements, DELETEs of [chat_id], notifications to [admin],
    sleeps. *)
Definition handler_event (admin chat_id : Z) (ev : event) : Prop :=
  match ev with
  | EvGetMe => True
  | EvGetEntity p => p = PeerId chat_id
  | EvExecute (Delete id) => id = chat_id
  | EvExecute (InsertOrReplace _ _) => True
  | EvGetFullChannel _ | EvSleep _ => True
  | EvSendMessage to _ => to = admin
  | _ => False
  end.

(** No row is lost, except possibly that of [id]. *)
Definition keeps_rows_but (id : Z) (t t' : gmap Z row) : Prop :=
  forall k, k <> id -> is_Some (t !! k) -> is_Some (t' !! k).

(** How many of the sleeps of a trace last POLLING_INTERVAL seconds. *)
Definition polling_sleeps (cfg : config) (evs : list event) : nat :=
  length (List.filter (fun d => Qeq_bool d (inject_Z (POLLING_INTERVAL cfg))) (slept evs)).

(** ** More scenarios *)

Module Cases.


(** The bot is in channels 5 and 7; every lookup fails with an
    exception whose text is empty. *)
Definition timing_out : env :=
  mkEnv
    (fun _ _ => inl (OtherError ""))
    (fun _ _ => inr None)
    (fun _ => inr Scenario.two_dialogs)
    (fun _ => inr 1)
    (fun _ => None)
    (fun _ => Scenario.now).

(** Messages are rate limited once, for 4 seconds, and the retry fails. *)
Definition undeliverable : env :=
  mkEnv
    (fun _ p =>
       match p with
       | PeerId id => inr (Scenario.channel id "X")
       | PeerEntity e => inr e
       end)
    (fun _ _ => inr (Some 200))
    (fun _ => inr [])
    (fun _ => inr 1)
    (fun t => if (t =? 0)%nat then Some (FloodWaitError 4) else Some (OtherError "down"))
    (fun _ => Scenario.now).

(** The dialog listing is rate limited for 11 seconds. *)
Definition dialogs_limited : env :=
  mkEnv
    (fun _ _ => inl ChannelPrivateError)
    (fun _ _ => inr None)
    (fun _ => inl (FloodWaitError 11))
    (fun _ => inr 1)
    (fun _ => None)
    (fun _ => Scenario.now).

(** The bot (user 1) has left channel 9, which is not tracked; another
    user (2) has left channel 5; the bot has joined channel 9; the bot
    has joined channel 102. *)
Definition left_9 : chat_action := mkChatAction 1 false false true false true 9.
Definition other_left_5 : chat_action := mkChatAction 2 false false true false true 5.
Definition joined_9 : chat_action := mkChatAction 1 true false false false true 9.
Definition joined_102 : chat_action := mkChatAction 1 false true false false true 102.

End Cases.

(** * Properties *)

(** ** The table and its scan *)

Lemma db_ids_of_scan (t : gmap Z row) : db_ids_of (map_to_list t) = dom t.
Proof. unfold db_ids_of. symmetry. apply leibniz_equiv, dom_alt. Qed.

Lemma elem_of_current_channels (dialogs : list entity) (id : Z) :
  id ∈ current_channels_of dialogs <->
  exists d, In d dialogs /\ e_is_channel d = true /\ e_id d = id.
Proof.
  unfold current_channels_of.
  rewrite elem_of_list_to_set, list_elem_of_In, in_map_iff.
  split.
  - intros (d & Hid & Hd). apply filter_In in Hd as [Hin Hch]. eauto.
  - intros (d & Hin & Hch & Hid). exists d. split; [done|].
    apply filter_In. done.
Qed.


Lemma events_since_app (w w' : world) (evs : list event) :
  trace w' = trace w ++ evs -> events_since w w' = evs.
Proof. intros H. unfold events_since. rewrite H. apply drop_app_length. Qed.

Lemma executed_app (a b : list event) : executed (a ++ b) = executed a ++ executed b.
Proof. apply flat_map_app. Qed.

Lemma notified_app (a b : list event) : notified (a ++ b) = notified a ++ notified b.
Proof. apply flat_map_app. Qed.

Lemma slept_app (a b : list event) : slept (a ++ b) = slept a ++ slept b.
Proof. apply flat_map_app. Qed.


(** ** The three writers, run *)

Lemma add_channel_to_db_run channel_id title access_hash link subscribers (w : world) :
  add_channel_to_db channel_id title access_hash link subscribers w =
  (Ret true,
   mkWorld
     (<[channel_id := mkRow (Some title) (Some access_hash) (Some link) subscribers 0]> (db w))
     (tick w)
     (trace w ++
      [EvExecute (InsertOrReplace channel_id
         [SetTitle (Some title); SetAccessHash (Some access_hash);
          SetLink (Some link); SetSubscribers subscribers])])).
Proof. reflexivity. Qed.

Lemma update_channel_subscribers_run (E : env) channel_id subscribers (w : world) :
  update_channel_subscribers E channel_id subscribers w =
  let now := clock_at E (tick w) in
  let s := Update [SetSubscribers subscribers; SetLastChecked now] channel_id in
  match db w !! channel_id with
  | Some r =>
      (Ret true,
       mkWorld
         (<[channel_id := mkRow (r_title r) (r_access_hash r) (r_link r) subscribers now]> (db w))
         (S (tick w)) (trace w ++ [EvExecute s]))
  | None => (Ret false, mkWorld (db w) (S (tick w)) (trace w ++ [EvExecute s]))
  end.
Proof.
  unfold update_channel_subscribers, bind, time_time, cursor_execute, execute; simpl.
  destruct (db w !! channel_id); reflexivity.
Qed.

Lemma remove_channel_from_db_run channel_id (w : world) :
  remove_channel_from_db channel_id w =
  match db w !! channel_id with
  | Some _ =>
      (Ret true,
       mkWorld (delete channel_id (db w)) (tick w) (trace w ++ [EvExecute (Delete channel_id)]))
  | None =>
      (Ret false, mkWorld (db w) (tick w) (trace w ++ [EvExecute (Delete channel_id)]))
  end.
Proof.
  unfold remove_channel_from_db, bind, cursor_execute, execute; simpl.
  destruct (db w !! channel_id); reflexivity.
Qed.

(** ** One attempt of [get_channel_info] *)

Lemma get_channel_info_S (E : env) (fuel : nat) (p : peer) (w : world) :
  get_channel_info E (S fuel) p w =
  match get_entity_at E (tick w) p with
  | inr entity =>
      if e_is_channel entity then
        (Ret (Some (Info (e_id entity) (e_title entity) (e_access_hash entity)
                      (link_of entity)
                      (count_of (get_full_channel_at E (S (tick w)) entity)) entity)),
         call (EvGetFullChannel entity) (call (EvGetEntity p) w))
      else (Ret None, call (EvGetEntity p) w)
  | inl (FloodWaitError seconds) =>
      get_channel_info E fuel p (asleep (inject_Z seconds) (call (EvGetEntity p) w))
  | inl e => (Ret (Some (error_info p e)), call (EvGetEntity p) w)
  end.
Proof.
  cbn [get_channel_info].
  unfold try_except at 1. unfold bind at 1. unfold client_get_entity, external.
  destruct (get_entity_at E (tick w) p) as [e | entity].
  - destruct e; reflexivity.
  - destruct (e_is_channel entity) eqn:Hch; [|reflexivity].
    unfold bind, try_except, client_get_full_channel, external, link_of, count_of; simpl.
    destruct (get_full_channel_at E (S (tick w)) entity) as [e | [n|]];
      destruct (e_username entity) as [u|]; try destruct (decide (u = "")); reflexivity.
Qed.

(** A fetch never touches the table, executes no statement and sends
    nothing, whatever the gateway answers. *)
Lemma get_channel_info_frame (E : env) (fuel : nat) (p : peer) (w : world) :
  exists evs,
    trace (snd (get_channel_info E fuel p w)) = trace w ++ evs
    /\ db (snd (get_channel_info E fuel p w)) = db w
    /\ executed evs = [] /\ notified evs = [].
Proof.
  revert w. induction fuel as [|fuel IH]; intros w.
  - exists []. simpl. rewrite app_nil_r. done.
  - rewrite get_channel_info_S.
    destruct (get_entity_at E (tick w) p) as [e | entity].
    + destruct e;
        try (exists [EvGetEntity p]; simpl; done).
      destruct (IH (asleep (inject_Z seconds) (call (EvGetEntity p) w)))
        as (evs & Htr & Hdb & Hex & Hno).
      exists ([EvGetEntity p; EvSleep (inject_Z seconds)] ++ evs).
      rewrite Htr, Hdb. simpl. rewrite <- !app_assoc. simpl.
      rewrite Hex, Hno. done.
    + destruct (e_is_channel entity).
      * exists [EvGetEntity p; EvGetFullChannel entity]. simpl.
        rewrite <- app_assoc. done.
      * exists [EvGetEntity p]. done.
Qed.

(** ** Staleness selection *)

Lemma channels_to_update_of_run (E : env) (l : list channel_row) (w : world) :
  channels_to_update_of E l w =
  (Ret (selection E (tick w) l), mkWorld (db w) (tick w + length l)%nat (trace w)).
Proof.
  revert w. induction l as [|c rest IH]; intros w.
  - simpl. unfold ret. destruct w; simpl. rewrite Nat.add_0_r. reflexivity.
  - cbn [channels_to_update_of selection]. unfold bind at 1. unfold time_time at 1.
    unfold bind at 1. rewrite IH. simpl.
    replace (S (tick w + length rest)) with (tick w + S (length rest))%nat by lia.
    destruct (stale (clock_at E (tick w)) c); reflexivity.
Qed.

Lemma selection_constant_clock (E : env) (now : Z) (l : list channel_row) (t : nat) :
  (forall k, (k < length l)%nat -> clock_at E (t + k) = now) ->
  selection E t l = List.filter (stale now) l.
Proof.
  revert t. induction l as [|c rest IH]; intros t Hclock; [reflexivity|].
  simpl. rewrite <- (Hclock 0%nat) by (simpl; lia). rewrite Nat.add_0_r.
  rewrite (IH (S t)).
  - rewrite <- (Hclock 0%nat) by (simpl; lia). rewrite Nat.add_0_r. reflexivity.
  - intros k Hk. rewrite <- (Hclock (S k)) by (simpl; lia). f_equal. lia.
Qed.

(** C5. Staleness selection: when the clock reads [now] while the
    stored rows are scanned, the rows kept for refresh are exactly those
    with [now - last_checked > 86400]; the comparison is strict, so a row
    last checked at [now - 86401] is kept and one last checked at
    [now - 86399] is not.  The scan changes neither table nor trace. *)
Theorem C5_staleness_selection
    (E : env) (now : Z) (db_channels : list channel_row) (w : world) :
  (forall k, (k < length db_channels)%nat -> clock_at E (tick w + k) = now) ->
  exists selected w',
    channels_to_update_of E db_channels w = (Ret selected, w')
    /\ db w' = db w /\ trace w' = trace w
    /\ selected = List.filter (fun c => now - r_last_checked (snd c) >? 86400) db_channels
    /\ (forall c, In c db_channels ->
          (In c selected <-> now - r_last_checked (snd c) > 86400))
    /\ (forall c, In c db_channels ->
          r_last_checked (snd c) = now - 86401 -> In c selected)
    /\ (forall c, In c db_channels ->
          r_last_checked (snd c) = now - 86399 -> ~ In c selected).
Proof.
  intros Hclock. rewrite channels_to_update_of_run.
  rewrite (selection_constant_clock E now) by exact Hclock.
  eexists _, _. split; [reflexivity|]. simpl.
  split; [reflexivity|]. split; [reflexivity|]. split; [reflexivity|].
  assert (Hiff : forall c, In c db_channels ->
            (In c (List.filter (stale now) db_channels)
             <-> now - r_last_checked (snd c) > 86400)).
  { intros c Hin. rewrite filter_In. unfold stale. rewrite Z.gtb_lt. split.
    - intros [_ H]. lia.
    - intros H. split; [exact Hin | lia]. }
  split; [exact Hiff|]. split.
  - intros c Hin Hlc. apply Hiff; [exact Hin | lia].
  - intros c Hin Hlc Hsel. apply Hiff in Hsel; [lia | exact Hin].
Qed.

Lemma C5_staleness_selection_witness :
  exists selected w',
    channels_to_update_of (Scenario.steady 10 Scenario.now)
      [Scenario.old_row; Scenario.young_row] Scenario.tracked = (Ret selected, w')
    /\ In Scenario.old_row selected /\ ~ In Scenario.young_row selected.
Proof.
  destruct (C5_staleness_selection (Scenario.steady 10 Scenario.now) Scenario.now
              [Scenario.old_row; Scenario.young_row] Scenario.tracked)
    as (selected & w' & Hrun & _ & _ & _ & _ & Hold & Hyoung).
  { intros k _. reflexivity. }
  exists selected, w'. split; [exact Hrun|]. split.
  - apply Hold; [left; reflexivity | reflexivity].
  - apply Hyoung; [right; left; reflexivity | reflexivity].
Defined.

(** ** Re-adding a tracked channel *)

(** C10. Re-adding a tracked id replaces its row: the five named
    columns take the new values, [last_checked] is not among the
    columns written and falls back to its default 0 whatever it was,
    no other row changes and no row is added; once the clock is past
    86400 the row passes the staleness test, so the scan of the next
    refresh selects it. *)
Theorem C10_upsert_resets_last_checked
    (w : world) (channel_id : Z) (old : row)
    (title : string) (access_hash : Z) (link : string) (subscribers : Z) :
  db w !! channel_id = Some old ->
  let w' := snd (add_channel_to_db channel_id title access_hash link subscribers w) in
  let fresh := mkRow (Some title) (Some access_hash) (Some link) subscribers 0 in
  fst (add_channel_to_db channel_id title access_hash link subscribers w) = Ret true
  /\ db w' !! channel_id = Some fresh
  /\ (forall id, id <> channel_id -> db w' !! id = db w !! id)
  /\ dom (db w') = dom (db w)
  /\ (exists s, executed (events_since w w') = [s] /\ writes ColLastChecked s = false)
  /\ (forall now, 86400 < now -> stale now (channel_id, fresh) = true)
  /\ (forall (E : env) now,
        86400 < now ->
        (forall k, clock_at E (tick w' + k) = now) ->
        exists selected w'',
          channels_to_update_of E (map_to_list (db w')) w' = (Ret selected, w'')
          /\ In (channel_id, fresh) selected).
Proof.
  intros Hold w' fresh. subst w'. rewrite add_channel_to_db_run. simpl.
  split; [reflexivity|].
  split; [apply lookup_insert_eq|].
  split; [intros id Hne; apply lookup_insert_ne; congruence|].
  split.
  { rewrite dom_insert_L. apply elem_of_dom_2 in Hold.
    apply subseteq_union_1_L, singleton_subseteq_l. exact Hold. }
  split.
  { eexists. split.
    - unfold events_since. simpl. rewrite drop_app_length. reflexivity.
    - reflexivity. }
  assert (Hstale : forall now, 86400 < now -> stale now (channel_id, fresh) = true).
  { intros now Hnow. unfold stale. simpl. apply Z.gtb_lt. lia. }
  split; [exact Hstale|].
  intros E now Hnow Hclock. rewrite channels_to_update_of_run.
  rewrite (selection_constant_clock E now) by (intros k _; apply Hclock).
  eexists _, _. split; [reflexivity|].
  apply filter_In. split; [|apply Hstale; exact Hnow].
  apply list_elem_of_In, elem_of_map_to_list. simpl. apply lookup_insert_eq.
Qed.

Lemma C10_upsert_resets_last_checked_witness :
  db Scenario.tracked !! 5 = Some (mkRow (Some "X") (Some 77) (Some "https://t.me/c/5") 200 1000)
  /\ db (snd (add_channel_to_db 5 "X" 77 "https://t.me/c/5" 200 Scenario.tracked)) !! 5
     = Some (mkRow (Some "X") (Some 77) (Some "https://t.me/c/5") 200 0).
Proof.
  split; [reflexivity|].
  apply (C10_upsert_resets_last_checked Scenario.tracked 5
           (mkRow (Some "X") (Some 77) (Some "https://t.me/c/5") 200 1000)).
  reflexivity.
Defined.

(** ** The notifier *)

Lemma send_admin_notification_run (cfg : config) (E : env) (message : string) (w : world) :
  send_admin_notification cfg E message w =
  let sent := call (EvSendMessage (ADMIN_ID cfg) message) w in
  match deliver_at E (tick w) with
  | None => (Ret tt, sent)
  | Some (FloodWaitError seconds) =>
      let again := call (EvSendMessage (ADMIN_ID cfg) message) (asleep (inject_Z seconds) sent) in
      match deliver_at E (S (tick w)) with
      | None => (Ret tt, again)
      | Some e => (Raise e, again)
      end
  | Some _ => (Ret tt, sent)
  end.
Proof.
  unfold send_admin_notification, try_except, client_send_message, deliver; simpl.
  destruct (deliver_at E (tick w)) as [e|]; [|reflexivity].
  destruct e; reflexivity.
Qed.

(** Whatever the platform answers, a notification attempt leaves the
    table alone and hands the message to [send_message] once or twice. *)
Lemma send_admin_notification_frame (cfg : config) (E : env) (message : string) (w : world) :
  exists evs,
    trace (snd (send_admin_notification cfg E message w)) = trace w ++ evs
    /\ db (snd (send_admin_notification cfg E message w)) = db w
    /\ executed evs = []
    /\ (notified evs = [message] \/ notified evs = [message; message]).
Proof.
  rewrite send_admin_notification_run. simpl.
  destruct (deliver_at E (tick w)) as [e|].
  - destruct e;
      try (exists [EvSendMessage (ADMIN_ID cfg) message]; simpl; tauto).
    exists [EvSendMessage (ADMIN_ID cfg) message; EvSleep (inject_Z seconds);
            EvSendMessage (ADMIN_ID cfg) message].
    destruct (deliver_at E (S (tick w))); simpl; rewrite <- !app_assoc; simpl; tauto.
  - exists [EvSendMessage (ADMIN_ID cfg) message]; simpl; tauto.
Qed.

(** ** One step of the subscriber refresh *)

(** What is left of [refresh_one] once the fetch has answered with the
    count [n]: lines 422-436 under the handlers of lines 437-440. *)
Lemma refresh_one_unfold (cfg : config) (E : env) (fuel : nat) (idx : Z)
    (channel : channel_row) (w : world) :
  refresh_one cfg E fuel (idx, channel) w =
  match get_channel_info E fuel (PeerId (fst channel)) w with
  | (Ret (Some (Info _ _ _ _ n _)), w1) =>
      try_except
        (when (Z.abs (n - r_subscribers (snd channel)) >? 50)
           (update_channel_subscribers E (fst channel) n ;;
            when (Z.abs (n - r_subscribers (snd channel)) >? 100)
              (send_admin_notification cfg E (msg_change channel n))) ;;
         when (idx mod 10 =? 0) (asyncio_sleep (inject_Z 2)))
        (fun e =>
           match e with
           | FloodWaitError seconds => asyncio_sleep (inject_Z seconds)
           | _ => ret tt
           end) w1
  | (Ret (Some (ErrorInfo _ _ _)), w1) => (Ret tt, w1)
  | (Ret None, w1) => (Ret tt, w1)
  | (Raise (FloodWaitError seconds), w1) => (Ret tt, asleep (inject_Z seconds) w1)
  | (Raise _, w1) => (Ret tt, w1)
  | (OutOfFuel, w1) => (OutOfFuel, w1)
  end.
Proof.
  unfold refresh_one. unfold try_except at 1. unfold bind at 1.
  destruct (get_channel_info E fuel (PeerId (fst channel)) w) as [[[ci|]|e|] w1].
  - destruct ci as [i t a l n ent | p t err].
    + reflexivity.
    + unfold usable. destruct (decide (err = "")); reflexivity.
  - reflexivity.
  - destruct e; reflexivity.
  - reflexivity.
Qed.

Ltac since :=
  unfold events_since; simpl; rewrite <- ?app_assoc;
  rewrite ?drop_app_length, ?drop_all; simpl.

(** The refresh writes only after a fetch that produced a count. *)
Lemma refresh_one_without_count (cfg : config) (E : env) (fuel : nat) (idx : Z)
    (channel : channel_row) (w : world) :
  (forall i t a l n e,
     fst (get_channel_info E fuel (PeerId (fst channel)) w) <> Ret (Some (Info i t a l n e))) ->
  db (snd (refresh_one cfg E fuel (idx, channel) w)) = db w
  /\ executed (events_since w (snd (refresh_one cfg E fuel (idx, channel) w))) = [].
Proof.
  intros Hfail. rewrite refresh_one_unfold.
  destruct (get_channel_info_frame E fuel (PeerId (fst channel)) w)
    as (evs & Htr & Hdb & Hex & _).
  destruct (get_channel_info E fuel (PeerId (fst channel)) w) as [[[ci|]|e|] w1];
    simpl in *.
  - destruct ci as [i t a l n ent | p t err].
    + exfalso. eapply Hfail. reflexivity.
    + simpl. split; [exact Hdb|]. rewrite (events_since_app _ _ evs Htr). exact Hex.
  - split; [exact Hdb|]. rewrite (events_since_app _ _ evs Htr). exact Hex.
  - destruct e; simpl; (split; [exact Hdb|]);
      try (rewrite (events_since_app _ _ evs Htr); exact Hex).
    rewrite (events_since_app _ _ (evs ++ [EvSleep (inject_Z seconds)])).
    + rewrite executed_app, Hex. reflexivity.
    + simpl. rewrite Htr, app_assoc. reflexivity.
  - split; [exact Hdb|]. rewrite (events_since_app _ _ evs Htr). exact Hex.
Qed.

(** ** The writers and the two tracked columns *)

(** C3, as amended.  [update_channel_subscribers] is the one writer of
    [last_checked]: its single UPDATE names [subscribers] and
    [last_checked] together and sets them to the given count and the
    clock reading; the refresh issues it only after a fetch that produced
    a count.  [remove_channel_from_db] names neither column.
    [add_channel_to_db] names [subscribers] without [last_checked], which
    takes its default 0. *)
Theorem C3_tracked_columns (cfg : config) (E : env) :
  (forall id n w,
     let w' := snd (update_channel_subscribers E id n w) in
     exists s,
       executed (events_since w w') = [s]
       /\ writes ColSubscribers s = true /\ writes ColLastChecked s = true
       /\ forall r, db w !! id = Some r ->
            db w' !! id =
            Some (mkRow (r_title r) (r_access_hash r) (r_link r) n (clock_at E (tick w))))
  /\ (forall fuel idx channel w,
        (forall i t a l n e,
           fst (get_channel_info E fuel (PeerId (fst channel)) w)
           <> Ret (Some (Info i t a l n e))) ->
        db (snd (refresh_one cfg E fuel (idx, channel) w)) = db w
        /\ executed (events_since w (snd (refresh_one cfg E fuel (idx, channel) w))) = [])
  /\ (forall id w,
        let w' := snd (remove_channel_from_db id w) in
        exists s,
          executed (events_since w w') = [s]
          /\ writes ColSubscribers s = false /\ writes ColLastChecked s = false
          /\ db w' !! id = None)
  /\ (forall id title access_hash link n w,
        let w' := snd (add_channel_to_db id title access_hash link n w) in
        exists s,
          executed (events_since w w') = [s]
          /\ writes ColSubscribers s = true /\ writes ColLastChecked s = false
          /\ db w' !! id = Some (mkRow (Some title) (Some access_hash) (Some link) n 0)).
Proof.
  split; [|split; [|split]].
  - intros id n w w'. subst w'. rewrite update_channel_subscribers_run. cbv zeta.
    exists (Update [SetSubscribers n; SetLastChecked (clock_at E (tick w))] id).
    destruct (db w !! id) as [r|] eqn:Hrow; simpl.
    + split; [since; reflexivity|]. split; [reflexivity|]. split; [reflexivity|].
      intros r' [= <-]. apply lookup_insert_eq.
    + split; [since; reflexivity|]. split; [reflexivity|]. split; [reflexivity|].
      intros r' [=].
  - intros fuel idx channel w. apply refresh_one_without_count.
  - intros id w w'. subst w'. rewrite remove_channel_from_db_run.
    exists (Delete id).
    destruct (db w !! id) as [r|] eqn:Hrow; simpl.
    + split; [since; reflexivity|]. split; [reflexivity|]. split; [reflexivity|].
      apply lookup_delete_eq.
    + split; [since; reflexivity|]. split; [reflexivity|]. split; [reflexivity|].
      exact Hrow.
  - intros id title access_hash link n w w'. subst w'. rewrite add_channel_to_db_run.
    eexists. simpl. split; [since; reflexivity|].
    split; [reflexivity|]. split; [reflexivity|]. apply lookup_insert_eq.
Qed.

(** C3 as stated fails on [add_channel_to_db]: re-adding channel 5 with a
    count of 300 executes one statement that names [subscribers] and not
    [last_checked]; the stored count goes from 200 to 300 while
    [last_checked] goes from 1000 to 0, which is no fetch time. *)
Lemma C3_counterexample :
  let w := Scenario.tracked in
  let w' := snd (add_channel_to_db 5 "X" 77 "https://t.me/c/5" 300 w) in
  (exists s, In s (executed (events_since w w'))
             /\ writes ColSubscribers s = true /\ writes ColLastChecked s = false)
  /\ db w !! 5 = Some (mkRow (Some "X") (Some 77) (Some "https://t.me/c/5") 200 1000)
  /\ db w' !! 5 = Some (mkRow (Some "X") (Some 77) (Some "https://t.me/c/5") 300 0).
Proof.
  cbv zeta. split; [|split].
  - eexists. split; [left; reflexivity|]. split; reflexivity.
  - reflexivity.
  - reflexivity.
Qed.

Lemma C3_tracked_columns_witness :
  db (snd (update_channel_subscribers (Scenario.steady 300 Scenario.now) 5 300
             Scenario.tracked)) !! 5
  = Some (mkRow (Some "X") (Some 77) (Some "https://t.me/c/5") 300 Scenario.now).
Proof.
  destruct (proj1 (C3_tracked_columns Scenario.cfg (Scenario.steady 300 Scenario.now))
              5 300 Scenario.tracked) as (s & _ & _ & _ & Hrow).
  apply (Hrow (mkRow (Some "X") (Some 77) (Some "https://t.me/c/5") 200 1000)).
  reflexivity.
Defined.

(** C4. Refresh thresholds: for a stored row with count [o] and a fetch
    that produced the count [n], the refresh step updates the row
    (count and [last_checked], by one UPDATE) exactly when
    [|n - o| > 50] and hands a notification to [send_message] exactly
    when [|n - o| > 100]; when [|n - o| <= 50] the table, [last_checked]
    included, is unchanged.  A change of 51 updates without notifying, a
    change of 101 does both. *)
Theorem C4_refresh_thresholds (cfg : config) (E : env) (fuel : nat) (idx : Z)
    (id : Z) (r : row) (w w1 : world)
    (i : Z) (t : string) (a : Z) (l : string) (n : Z) (e : entity) :
  db w !! id = Some r ->
  get_channel_info E fuel (PeerId id) w = (Ret (Some (Info i t a l n e)), w1) ->
  let o := r_subscribers r in
  let w2 := snd (refresh_one cfg E fuel (idx, (id, r)) w) in
  let evs := events_since w1 w2 in
  let now := clock_at E (tick w1) in
  let updated := mkRow (r_title r) (r_access_hash r) (r_link r) n now in
  (Z.abs (n - o) > 50 ->
     db w2 = <[id := updated]> (db w)
     /\ executed evs = [Update [SetSubscribers n; SetLastChecked now] id])
  /\ (Z.abs (n - o) <= 50 ->
        db w2 = db w /\ executed evs = [] /\ notified evs = [])
  /\ (notified evs <> [] <-> Z.abs (n - o) > 100)
  /\ (forall m, In m (notified evs) -> m = msg_change (id, r) n)
  /\ (Z.abs (n - o) = 51 -> db w2 !! id = Some updated /\ notified evs = [])
  /\ (Z.abs (n - o) = 101 -> db w2 !! id = Some updated /\ notified evs <> []).
Proof.
  intros Hrow Hfetch o w2 evs now updated.
  assert (Hdb : db w1 = db w).
  { destruct (get_channel_info_frame E fuel (PeerId id) w) as (? & _ & H & _).
    rewrite Hfetch in H. exact H. }
  assert (Hrow1 : db w1 !! id = Some r) by (rewrite Hdb; exact Hrow).
  subst evs w2. rewrite refresh_one_unfold. cbn [fst snd]. rewrite Hfetch.
  fold o. unfold try_except, bind, when.
  destruct (Z.gtb_spec (Z.abs (n - o)) 50) as [H50|H50].
  - (* the count is written *)
    rewrite update_channel_subscribers_run. cbv zeta. rewrite Hrow1.
    fold now. fold updated. rewrite <- Hdb.
    destruct (Z.gtb_spec (Z.abs (n - o)) 100) as [H100|H100].
    + (* and the change is notified *)
      rewrite send_admin_notification_run. cbv zeta. cbn [tick].
      destruct (deliver_at E (S (tick w1))) as [x|];
        [destruct x; try destruct (deliver_at E (S (S (tick w1)))) as [y|];
         try destruct y|];
        destruct (idx mod 10 =? 0); since;
        (repeat split; intros; try reflexivity; try lia; try discriminate;
         try apply lookup_insert_eq;
         repeat match goal with
                | H : _ \/ _ |- _ => destruct H
                | H : False |- _ => destruct H
                | H : ?x = ?y |- _ => subst y
                end; try reflexivity).
    + destruct (idx mod 10 =? 0); since;
        (repeat split; intros; try reflexivity; try lia; try contradiction;
         try apply lookup_insert_eq).
  - destruct (idx mod 10 =? 0); since;
      (repeat split; intros; try reflexivity; try lia; try contradiction;
       try exact Hdb).
Qed.

Lemma C4_refresh_thresholds_witness :
  let E := Scenario.steady 251 Scenario.now in
  let r := mkRow (Some "X") (Some 77) (Some "https://t.me/c/5") 200 1000 in
  let w1 := snd (get_channel_info E 1 (PeerId 5) Scenario.tracked) in
  let w2 := snd (refresh_one Scenario.cfg E 1 (0, (5, r)) Scenario.tracked) in
  db w2 !! 5 = Some (mkRow (Some "X") (Some 77) (Some "https://t.me/c/5") 251 Scenario.now)
  /\ notified (events_since w1 w2) = [].
Proof.
  cbv zeta.
  refine (proj1 (proj2 (proj2 (proj2 (proj2
    (C4_refresh_thresholds Scenario.cfg (Scenario.steady 251 Scenario.now) 1 0 5
       (mkRow (Some "X") (Some 77) (Some "https://t.me/c/5") 200 1000)
       Scenario.tracked
       (snd (get_channel_info (Scenario.steady 251 Scenario.now) 1 (PeerId 5)
               Scenario.tracked))
       5 "X" 77 "https://t.me/c/5" 251 (Scenario.channel 5 "X") _ _))))) _);
    reflexivity.
Defined.

(** ** Rate limits *)




(** ** Throttling in the refresh *)

(** C9, as amended.  In the subscriber refresh, when the fetch of the
    channel at position [idx] produced a count and the notifier raises
    nothing, the step ends with a sleep of 2 exactly when
    [idx mod 10 = 0], that is for the 1st, 11th, 21st, ... channel of
    the batch; it is the only sleep after the fetch. *)
Theorem C9_refresh_pause (cfg : config) (E : env) (fuel : nat) (idx : Z)
    (channel : channel_row) (w w1 : world)
    (i : Z) (t : string) (a : Z) (l : string) (n : Z) (e : entity) :
  get_channel_info E fuel (PeerId (fst channel)) w = (Ret (Some (Info i t a l n e)), w1) ->
  (forall tk, deliver_at E tk = None) ->
  let w2 := snd (refresh_one cfg E fuel (idx, channel) w) in
  fst (refresh_one cfg E fuel (idx, channel) w) = Ret tt
  /\ (idx mod 10 = 0 ->
        exists pre, events_since w1 w2 = pre ++ [EvSleep (inject_Z 2)] /\ slept pre = [])
  /\ (idx mod 10 <> 0 -> slept (events_since w1 w2) = []).
Proof.
  intros Hfetch Hdeliver w2. subst w2. rewrite refresh_one_unfold, Hfetch.
  unfold try_except, bind, when.
  destruct (Z.eqb_spec (idx mod 10) 0) as [Hidx|Hidx];
    (destruct (Z.abs (n - r_subscribers (snd channel)) >? 50);
     [rewrite update_channel_subscribers_run; cbv zeta;
      destruct (db w1 !! fst channel);
      (destruct (Z.abs (n - r_subscribers (snd channel)) >? 100);
       [rewrite send_admin_notification_run; cbv zeta; rewrite Hdeliver|])
     |]);
    since; (split; [reflexivity|]); (split; [intros H|intros H; try reflexivity; try contradiction]);
    try contradiction.
  all: try (eexists [_; _]; split; [reflexivity|reflexivity]).
  all: try (eexists [_]; split; [reflexivity|reflexivity]).
  all: try (exists []; split; [reflexivity|reflexivity]).
Qed.

Lemma C9_refresh_pause_witness :
  let E := Scenario.steady 200 Scenario.now in
  let c := (5, mkRow (Some "X") (Some 77) (Some "https://t.me/c/5") 200 1000) in
  let w1 := snd (get_channel_info E 1 (PeerId 5) Scenario.tracked) in
  let w2 := snd (refresh_one Scenario.cfg E 1 (10, c) Scenario.tracked) in
  exists pre, events_since w1 w2 = pre ++ [EvSleep (inject_Z 2)] /\ slept pre = [].
Proof.
  cbv zeta.
  refine (proj1 (proj2
    (C9_refresh_pause Scenario.cfg (Scenario.steady 200 Scenario.now) 1 10
       (5, mkRow (Some "X") (Some 77) (Some "https://t.me/c/5") 200 1000)
       Scenario.tracked
       (snd (get_channel_info (Scenario.steady 200 Scenario.now) 1 (PeerId 5)
               Scenario.tracked))
       5 "X" 77 "https://t.me/c/5" 200 (Scenario.channel 5 "X") _ _)) _).
  - reflexivity.
  - intros tk. reflexivity.
  - reflexivity.
Defined.

(** C9 as stated fails.  Over eleven stale channels whose fetches all
    succeed, the refresh sleeps after the first channel and after the
    eleventh, not after the tenth; and when no fetch succeeds it
    processes all eleven without a single sleep. *)
Lemma C9_counterexample :
  let w := Scenario.eleven in
  let good := snd (refresh_subscribers Scenario.cfg (Scenario.steady 10 Scenario.now) 1 w) in
  let bad := snd (refresh_subscribers Scenario.cfg (Scenario.private Scenario.now) 1 w) in
  length (fetched (events_since w good)) = 11%nat
  /\ fetches_before_sleeps 0 (events_since w good) = [1; 11]%nat
  /\ slept (events_since w good) = [inject_Z 2; inject_Z 2]
  /\ length (fetched (events_since w bad)) = 11%nat
  /\ slept (events_since w bad) = [].
Proof. cbv zeta. repeat split; vm_compute; reflexivity. Qed.

(** ** Texts *)

Lemma append_assoc (a b c : string) : (a +:+ b) +:+ c = a +:+ (b +:+ c).
Proof.
  induction a as [|x a IH]; [reflexivity|].
  change (String x ((a +:+ b) +:+ c) = String x (a +:+ (b +:+ c))).
  rewrite IH. reflexivity.
Qed.

Lemma append_empty_r (a : string) : a +:+ "" = a.
Proof.
  induction a as [|x a IH]; [reflexivity|].
  change (String x (a +:+ "") = String x a). rewrite IH. reflexivity.
Qed.

Lemma contains_here (s post : string) : contains (s +:+ post) s.
Proof. exists "", post. reflexivity. Qed.

Lemma contains_end (s : string) : contains s s.
Proof. exists "", "". simpl. rewrite append_empty_r. reflexivity. Qed.

Lemma contains_skip (a t s : string) : contains t s -> contains (a +:+ t) s.
Proof.
  intros (pre & post & ->). exists (a +:+ pre), post. rewrite append_assoc. reflexivity.
Qed.

Lemma prefix_append (s post : string) : String.prefix s (s +:+ post) = true.
Proof.
  induction s as [|x s IH]; [destruct post; reflexivity|].
  change (String.prefix (String x s) (String x (s +:+ post)) = true).
  simpl. destruct (ascii_dec x x); [exact IH | contradiction].
Qed.

Lemma occurs_unfold (s t : string) :
  occurs s t =
  String.prefix s t || match t with
                       | EmptyString => false
                       | String _ t' => occurs s t'
                       end.
Proof. destruct t; reflexivity. Qed.

Lemma contains_occurs (t s : string) : contains t s -> occurs s t = true.
Proof.
  intros (pre & post & ->). induction pre as [|x pre IH].
  - change ("" +:+ s +:+ post) with (s +:+ post).
    rewrite occurs_unfold, prefix_append. reflexivity.
  - change (String x pre +:+ s +:+ post) with (String x (pre +:+ s +:+ post)).
    rewrite occurs_unfold, IH. apply orb_true_r.
Qed.

(** ** Removal *)

Lemma dict_by_id_skip (l : list channel_row) (m : gmap Z channel_row) (id : Z) :
  ~ In id (map fst l) ->
  fold_left (fun m c => <[fst c := c]> m) l m !! id = m !! id.
Proof.
  revert m. induction l as [|c l IH]; intros m Hnot; [reflexivity|].
  simpl in *. rewrite IH by tauto. apply lookup_insert_ne. tauto.
Qed.

Lemma dict_by_id_lookup (l : list channel_row) (m : gmap Z channel_row) (id : Z) (r : row) :
  NoDup (map fst l) -> In (id, r) l ->
  fold_left (fun m c => <[fst c := c]> m) l m !! id = Some (id, r).
Proof.
  revert m. induction l as [|c l IH]; intros m Hnd Hin; [destruct Hin|].
  simpl in *. apply NoDup_cons in Hnd as [Hfresh Hnd].
  destruct Hin as [-> | Hin].
  - rewrite dict_by_id_skip.
    + apply lookup_insert_eq.
    + intros H. apply Hfresh. apply list_elem_of_In. exact H.
  - apply IH; assumption.
Qed.

(** The dictionary built from a scan of the table holds, under every
    stored id, the row stored under it. *)
Lemma dict_by_id_scan (t : gmap Z row) (id : Z) (r : row) :
  t !! id = Some r -> dict_by_id (map_to_list t) !! id = Some (id, r).
Proof.
  intros Hrow. unfold dict_by_id. apply dict_by_id_lookup.
  - apply NoDup_fst_map_to_list.
  - apply list_elem_of_In, elem_of_map_to_list. exact Hrow.
Qed.

(** [next((c for c in channels if c[0] == channel_id), None)] over a scan
    of the table finds the row stored under [channel_id]. *)
Lemma find_scan (t : gmap Z row) (id : Z) (r : row) :
  t !! id = Some r ->
  List.find (fun c => fst c =? id) (map_to_list t) = Some (id, r).
Proof.
  intros Hrow.
  destruct (List.find (fun c => fst c =? id) (map_to_list t)) as [[k v]|] eqn:Hfind.
  - apply find_some in Hfind as [Hin Hk]. simpl in Hk. apply Z.eqb_eq in Hk. subst k.
    apply list_elem_of_In, elem_of_map_to_list in Hin. congruence.
  - exfalso. pose proof (find_none _ _ Hfind (id, r)) as Hnone.
    simpl in Hnone. rewrite Z.eqb_refl in Hnone.
    assert (true = false); [|discriminate].
    apply Hnone, list_elem_of_In, elem_of_map_to_list. exact Hrow.
Qed.

Lemma msg_removed_contains (id : Z) (r : row) :
  contains (msg_removed (id, r)) (str_text (r_title r))
  /\ contains (msg_removed (id, r)) (str (r_subscribers r)).
Proof.
  unfold msg_removed. simpl. split.
  - do 4 apply contains_skip. apply contains_here.
  - do 7 apply contains_skip. apply contains_end.
Qed.

Lemma msg_left_contains (id : Z) (r : row) :
  contains (msg_left id (Some (id, r))) (str_text (r_title r))
  /\ contains (msg_left id (Some (id, r))) (str (r_subscribers r))
  /\ contains (msg_left id (Some (id, r))) (str_text (r_link r)).
Proof.
  unfold msg_left. simpl. rewrite !append_assoc. split; [|split].
  - do 7 apply contains_skip. apply contains_here.
  - do 10 apply contains_skip. apply contains_here.
  - do 13 apply contains_skip. apply contains_end.
Qed.

(** C6, as amended.  On both removal paths the row is read from a scan
    made before the DELETE is executed, the DELETE removes the id from
    the table, and the notification that follows carries the title and
    the subscriber count of the row as scanned.  The notification of the
    leave/kick event carries the link as well; the one sent by the poll
    consists of title and count only.  On the poll path [scanned] is the
    table as it was scanned at the top of the cycle and [w] the world in
    which the row is deleted. *)
Theorem C6_removal_notification (cfg : config) (E : env) :
  (forall scanned id r w,
     scanned !! id = Some r ->
     is_Some (db w !! id) ->
     let w' := snd (process_removed cfg E (dict_by_id (map_to_list scanned)) id w) in
     db w' !! id = None
     /\ exists text rest,
          events_since w w' =
            EvExecute (Delete id) :: EvSendMessage (ADMIN_ID cfg) text :: rest
          /\ executed rest = []
          /\ contains text (str_text (r_title r))
          /\ contains text (str (r_subscribers r)))
  /\ (forall fuel event r w,
        get_me_at E (tick w) = inr (ev_user_id event) ->
        get_me_at E (S (tick w)) = inr (ev_user_id event) ->
        ev_user_added event = false -> ev_user_joined event = false ->
        ev_user_left event || ev_user_kicked event = true ->
        ev_is_channel event = true ->
        db w !! ev_chat_id event = Some r ->
        let w' := snd (handle_chat_action cfg E fuel event w) in
        db w' !! ev_chat_id event = None
        /\ exists text rest,
             events_since w w' =
               EvGetMe :: EvGetMe :: EvExecute (Delete (ev_chat_id event))
               :: EvSendMessage (ADMIN_ID cfg) text :: rest
             /\ executed rest = []
             /\ contains text (str_text (r_title r))
             /\ contains text (str (r_subscribers r))
             /\ contains text (str_text (r_link r))).
Proof.
  split.
  - intros scanned id r w Hscan [r' Hrow] w'. subst w'.
    unfold process_removed. rewrite (dict_by_id_scan _ _ _ Hscan).
    unfold bind. rewrite remove_channel_from_db_run, Hrow. cbn [when].
    rewrite send_admin_notification_run. cbv zeta. cbn [tick].
    destruct (msg_removed_contains id r) as [Htitle Hcount].
    destruct (deliver_at E (tick w)) as [x|];
      [destruct x; try destruct (deliver_at E (S (tick w))) as [y|]|];
      since; (split; [apply lookup_delete_eq|]);
      eexists _, _; (split; [reflexivity|]); (split; [reflexivity|]);
      split; first [exact Htitle | exact Hcount].
  - intros fuel event r w Hme0 Hme1 Hadd Hjoin Hleft Hch Hrow w'. subst w'.
    assert (Hrun : handle_chat_action cfg E fuel event w =
              send_admin_notification cfg E
                (msg_left (ev_chat_id event) (Some (ev_chat_id event, r)))
                (mkWorld (delete (ev_chat_id event) (db w)) (S (S (tick w)))
                   (((trace w ++ [EvGetMe]) ++ [EvGetMe])
                    ++ [EvExecute (Delete (ev_chat_id event))]))).
    { unfold handle_chat_action, bind, client_get_me, external.
      rewrite Hme0, Z.eqb_refl. cbn [tick call]. rewrite Hme1, Z.eqb_refl.
      rewrite Hadd, Hjoin, Hleft, Hch. cbn [orb].
      unfold get_all_channels_from_db. cbn [db call]. rewrite (find_scan _ _ _ Hrow).
      rewrite remove_channel_from_db_run. cbn [db call]. rewrite Hrow. reflexivity. }
    rewrite Hrun. rewrite send_admin_notification_run. cbv zeta. cbn [tick call].
    destruct (msg_left_contains (ev_chat_id event) r) as (Htitle & Hcount & Hlink).
    destruct (deliver_at E (S (S (tick w)))) as [x|];
      [destruct x; try destruct (deliver_at E (S (S (S (tick w))))) as [y|]|];
      since; (split; [apply lookup_delete_eq|]);
      eexists _, _; (split; [reflexivity|]); (split; [reflexivity|]);
      repeat split; first [exact Htitle | exact Hcount | exact Hlink].
Qed.

Lemma C6_removal_notification_witness :
  let E := Scenario.steady 200 Scenario.now in
  let w := Scenario.tracked in
  let w' := snd (process_removed Scenario.cfg E (dict_by_id (map_to_list (db w))) 5 w) in
  db w' !! 5 = None
  /\ exists text rest,
       events_since w w' = EvExecute (Delete 5) :: EvSendMessage 999 text :: rest
       /\ executed rest = []
       /\ contains text "X" /\ contains text "200".
Proof.
  apply (proj1 (C6_removal_notification Scenario.cfg (Scenario.steady 200 Scenario.now))
           (db Scenario.tracked) 5
           (mkRow (Some "X") (Some 77) (Some "https://t.me/c/5") 200 1000)
           Scenario.tracked).
  - reflexivity.
  - eexists. reflexivity.
Defined.

(** C6 as stated fails on the poll path for the link: when channel 5 is
    no longer among the dialogs, the poll deletes its row and notifies
    once, and the text does not contain the stored link. *)
Lemma C6_counterexample :
  let E := Scenario.steady 200 Scenario.now in
  let w := Scenario.tracked in
  let w' := snd (reconcile_membership Scenario.cfg E 1 [] w) in
  db w !! 5 = Some (mkRow (Some "X") (Some 77) (Some "https://t.me/c/5") 200 1000)
  /\ db w' !! 5 = None
  /\ exists text,
       notified (events_since w w') = [text]
       /\ contains text "X" /\ contains text "200"
       /\ ~ contains text "https://t.me/c/5".
Proof.
  cbv zeta. split; [reflexivity|]. split; [vm_compute; reflexivity|].
  exists (msg_removed (5, mkRow (Some "X") (Some 77) (Some "https://t.me/c/5") 200 1000)).
  split; [vm_compute; reflexivity|].
  split; [apply (msg_removed_contains 5 (mkRow (Some "X") (Some 77) (Some "https://t.me/c/5") 200 1000))|].
  split; [apply (msg_removed_contains 5 (mkRow (Some "X") (Some 77) (Some "https://t.me/c/5") 200 1000))|].
  intros Hlink. apply contains_occurs in Hlink. vm_compute in Hlink. discriminate.
Qed.

(** ** The range command *)

Lemma deliver_ok (E : env) (ev : event) (w : world) :
  deliver_at E (tick w) = None -> deliver E ev w = (Ret tt, call ev w).
Proof. intros H. unfold deliver. rewrite H. reflexivity. Qed.

(** One id of the range whose fetch succeeds: one row is written, under
    the id of the fetched entity, and the counter goes up by one. *)
Lemma add_range_step_added (cfg : config) (E : env) (percent_completed : Z -> Z -> Z)
    (fuel : nat) (total added i channel_id : Z) (entity : entity) (w : world) :
  channel_id <> ADMIN_ID cfg ->
  get_entity_at E (tick w) (PeerId channel_id) = inr entity ->
  e_is_channel entity = true ->
  (forall t, deliver_at E t = None) ->
  exists w' evs subscribers,
    add_range_step cfg E percent_completed (S fuel) total added (i, channel_id) w
    = (Ret (added + 1), w')
    /\ trace w' = trace w ++ evs
    /\ db w' = <[e_id entity := row_of entity subscribers]> (db w)
    /\ (exists cols, executed evs = [InsertOrReplace (e_id entity) cols]).
Proof.
  intros Hadmin Hentity Hchannel Hdeliver.
  unfold add_range_step. rewrite (proj2 (Z.eqb_neq _ _) Hadmin).
  unfold bind at 1. unfold try_except. unfold bind at 1.
  rewrite get_channel_info_S, Hentity, Hchannel. cbn [usable add_arguments].
  unfold bind at 1. unfold ret at 1. unfold bind at 1.
  rewrite add_channel_to_db_run. cbn [Z.gtb Z.compare]. unfold ret at 1.
  unfold bind, when, progress_msg_edit, asyncio_sleep, ret.
  destruct ((i mod 50 =? 0) || (i =? total - 1)); [rewrite (deliver_ok _ _ _ (Hdeliver _))|];
    destruct (i mod 10 =? 0);
    eexists _, _, (count_of (get_full_channel_at E (S (tick w)) entity));
    (split; [reflexivity|]); cbn [trace db call];
    rewrite <- ?app_assoc; (split; [reflexivity|]); (split; [reflexivity|]);
    eexists; reflexivity.
Qed.

Lemma usable_error_info (p : peer) (x : exn) :
  not_accessible x = true -> usable (error_info p x) = false.
Proof. destruct x; intros H; try discriminate H; reflexivity. Qed.

(** One id of the range that is not accessible: nothing is written and
    the counter stays. *)
Lemma add_range_step_skipped (cfg : config) (E : env) (percent_completed : Z -> Z -> Z)
    (fuel : nat) (total added i channel_id : Z) (x : exn) (w : world) :
  channel_id <> ADMIN_ID cfg ->
  get_entity_at E (tick w) (PeerId channel_id) = inl x ->
  not_accessible x = true ->
  (forall t, deliver_at E t = None) ->
  exists w' evs,
    add_range_step cfg E percent_completed (S fuel) total added (i, channel_id) w
    = (Ret added, w')
    /\ trace w' = trace w ++ evs
    /\ db w' = db w
    /\ executed evs = [].
Proof.
  intros Hadmin Hraise Hkind Hdeliver.
  unfold add_range_step. rewrite (proj2 (Z.eqb_neq _ _) Hadmin).
  unfold bind at 1. unfold try_except. unfold bind at 1.
  rewrite get_channel_info_S, Hraise.
  destruct x; try discriminate Hkind;
    rewrite (usable_error_info _ _ Hkind);
    unfold bind, when, progress_msg_edit, asyncio_sleep, ret;
    (destruct ((i mod 50 =? 0) || (i =? total - 1));
     [rewrite (deliver_ok _ _ _ (Hdeliver _))|]);
    destruct (i mod 10 =? 0); eexists _, _; (split; [reflexivity|]); cbn [trace db call];
    rewrite <- ?app_assoc; (split; [reflexivity|]); (split; [reflexivity|]);
    reflexivity.
Qed.

Section Range_100_104.

Context (cfg : config) (E : env) (percent_completed : Z -> Z -> Z).

Hypothesis admin_outside : ADMIN_ID cfg < 100 \/ 104 < ADMIN_ID cfg.
Hypothesis reachable :
  forall t id, In id [100; 101; 103; 104] ->
    exists entity,
      get_entity_at E t (PeerId id) = inr entity
      /\ e_is_channel entity = true /\ e_id entity = id.
Hypothesis unreachable :
  forall t, exists x,
    get_entity_at E t (PeerId 102) = inl x /\ not_accessible x = true.
Hypothesis delivered : forall t, deliver_at E t = None.

Lemma range_step_reachable (fuel : nat) (added i id : Z) (w : world) :
  In id [100; 101; 103; 104] ->
  exists w' evs r cols,
    add_range_step cfg E percent_completed (S fuel) 5 added (i, id) w
    = (Ret (added + 1), w')
    /\ trace w' = trace w ++ evs
    /\ db w' = <[id := r]> (db w)
    /\ executed evs = [InsertOrReplace id cols].
Proof.
  intros Hin. destruct (reachable (tick w) id Hin) as (entity & Hent & Hch & Hid).
  destruct (add_range_step_added cfg E percent_completed fuel 5 added i id entity w)
    as (w' & evs & n & Hrun & Htr & Hdb & cols & Hex); try assumption.
  { simpl in Hin. lia. }
  rewrite Hid in Hdb, Hex. eauto 10.
Qed.

Lemma range_step_unreachable (fuel : nat) (added i : Z) (w : world) :
  exists w' evs,
    add_range_step cfg E percent_completed (S fuel) 5 added (i, 102) w = (Ret added, w')
    /\ trace w' = trace w ++ evs
    /\ db w' = db w
    /\ executed evs = [].
Proof.
  destruct (unreachable (tick w)) as (x & Hraise & Hkind).
  apply (add_range_step_skipped cfg E percent_completed fuel 5 added i 102 x w);
    try assumption.
  lia.
Qed.

(** The loop of lines 318-350 over the five ids. *)
Lemma range_loop (fuel : nat) (w : world) :
  exists w' evs r100 r101 r103 r104 c100 c101 c103 c104,
    for_fold [(0, 100); (1, 101); (2, 102); (3, 103); (4, 104)] 0
      (add_range_step cfg E percent_completed (S fuel) 5) w
    = (Ret 4, w')
    /\ trace w' = trace w ++ evs
    /\ db w' = <[104 := r104]> (<[103 := r103]> (<[101 := r101]> (<[100 := r100]> (db w))))
    /\ executed evs =
       [InsertOrReplace 100 c100; InsertOrReplace 101 c101;
        InsertOrReplace 103 c103; InsertOrReplace 104 c104].
Proof.
  destruct (range_step_reachable fuel 0 0 100 w)
    as (w1 & evs1 & r100 & c100 & Hrun1 & Htr1 & Hdb1 & Hex1); [simpl; tauto|].
  destruct (range_step_reachable fuel (0 + 1) 1 101 w1)
    as (w2 & evs2 & r101 & c101 & Hrun2 & Htr2 & Hdb2 & Hex2); [simpl; tauto|].
  destruct (range_step_unreachable fuel (0 + 1 + 1) 2 w2)
    as (w3 & evs3 & Hrun3 & Htr3 & Hdb3 & Hex3).
  destruct (range_step_reachable fuel (0 + 1 + 1) 3 103 w3)
    as (w4 & evs4 & r103 & c103 & Hrun4 & Htr4 & Hdb4 & Hex4); [simpl; tauto|].
  destruct (range_step_reachable fuel (0 + 1 + 1 + 1) 4 104 w4)
    as (w5 & evs5 & r104 & c104 & Hrun5 & Htr5 & Hdb5 & Hex5); [simpl; tauto|].
  exists w5, (evs1 ++ evs2 ++ evs3 ++ evs4 ++ evs5), r100, r101, r103, r104,
    c100, c101, c103, c104.
  split; [|split; [|split]].
  - cbn [for_fold]. unfold bind.
    rewrite Hrun1, Hrun2, Hrun3, Hrun4, Hrun5. reflexivity.
  - rewrite Htr5, Htr4, Htr3, Htr2, Htr1. rewrite <- !app_assoc. reflexivity.
  - rewrite Hdb5, Hdb4, Hdb3, Hdb2, Hdb1. reflexivity.
  - rewrite !executed_app, Hex1, Hex2, Hex3, Hex4, Hex5. reflexivity.
Qed.

End Range_100_104.

(** C8. Bulk range add over [100, 104] when 102 is not accessible, every
    other id answers with a channel of that id, the admin id lies outside
    the range and the progress messages are delivered: the command runs
    to its end, executes exactly four INSERT OR REPLACE statements, for
    100, 101, 103 and 104, leaves whatever was stored under 102 alone,
    and its completion report reads 5 processed, 4 added. *)
Theorem C8_range_tolerates_failure (cfg : config) (E : env)
    (percent_completed : Z -> Z -> Z) (fuel : nat) (w : world) :
  (ADMIN_ID cfg < 100 \/ 104 < ADMIN_ID cfg) ->
  (forall t id, In id [100; 101; 103; 104] ->
     exists entity,
       get_entity_at E t (PeerId id) = inr entity
       /\ e_is_channel entity = true /\ e_id entity = id) ->
  (forall t, exists x,
     get_entity_at E t (PeerId 102) = inl x /\ not_accessible x = true) ->
  (forall t, deliver_at E t = None) ->
  (0 < fuel)%nat ->
  exists w' pre,
    add_range_command cfg E percent_completed fuel 100 104 w = (Ret tt, w')
    /\ events_since w w' = pre ++ [EvRespond (msg_range_complete 5 4)]
    /\ (exists c100 c101 c103 c104,
          executed (events_since w w') =
          [InsertOrReplace 100 c100; InsertOrReplace 101 c101;
           InsertOrReplace 103 c103; InsertOrReplace 104 c104])
    /\ dom (db w') = dom (db w) ∪ {[100; 101; 103; 104]}
    /\ db w' !! 102 = db w !! 102
    /\ contains (msg_range_complete 5 4) "Total processed: 5"
    /\ contains (msg_range_complete 5 4) "Channels added: 4".
Proof.
  intros Hadmin Hok Hbad Hdeliver Hfuel.
  destruct fuel as [|fuel]; [lia|].
  destruct (range_loop cfg E percent_completed Hadmin Hok Hbad Hdeliver fuel
              (call (EvRespond (msg_range_start 5)) w))
    as (w5 & evs & r100 & r101 & r103 & r104 & c100 & c101 & c103 & c104
        & Hloop & Htr & Hdb & Hex).
  assert (Hrun : add_range_command cfg E percent_completed (S fuel) 100 104 w
                 = (Ret tt, call (EvRespond (msg_range_complete 5 4)) w5)).
  { unfold add_range_command, try_except, event_respond.
    change (100 >? 104) with false. cbv iota beta.
    change (104 - 100 + 1) with 5.
    change (enumerate (range 100 (104 + 1)))
      with [(0, 100); (1, 101); (2, 102); (3, 103); (4, 104)].
    unfold bind. rewrite (deliver_ok _ _ _ (Hdeliver _)), Hloop.
    rewrite (deliver_ok _ _ _ (Hdeliver _)). reflexivity. }
  exists (call (EvRespond (msg_range_complete 5 4)) w5),
    ([EvRespond (msg_range_start 5)] ++ evs).
  assert (Hsince : events_since w (call (EvRespond (msg_range_complete 5 4)) w5)
                   = ([EvRespond (msg_range_start 5)] ++ evs)
                     ++ [EvRespond (msg_range_complete 5 4)]).
  { apply events_since_app. cbn [trace call]. rewrite Htr. cbn [trace call].
    rewrite <- !app_assoc. reflexivity. }
  split; [exact Hrun|]. split; [exact Hsince|]. split.
  { exists c100, c101, c103, c104. rewrite Hsince, !executed_app, Hex. reflexivity. }
  split.
  { cbn [db call]. rewrite Hdb. cbn [db call]. rewrite !dom_insert_L.
    apply set_eq. intros x. rewrite !elem_of_union, !elem_of_singleton. tauto. }
  split.
  { cbn [db call]. rewrite Hdb. cbn [db call].
    rewrite !lookup_insert_ne by lia. reflexivity. }
  unfold msg_range_complete. split.
  - do 3 apply contains_skip. change "Total processed: 5" with ("Total processed: " +:+ str 5).
    rewrite <- append_assoc. apply contains_here.
  - do 6 apply contains_skip. apply contains_end.
Qed.

Lemma C8_range_tolerates_failure_witness :
  exists w' pre,
    add_range_command Scenario.cfg (Scenario.without_102 200 Scenario.now)
      Scenario.percent 1 100 104 Scenario.tracked = (Ret tt, w')
    /\ events_since Scenario.tracked w' = pre ++ [EvRespond (msg_range_complete 5 4)].
Proof.
  destruct (C8_range_tolerates_failure Scenario.cfg (Scenario.without_102 200 Scenario.now)
              Scenario.percent 1 Scenario.tracked)
    as (w' & pre & Hrun & Hevs & _).
  - right. reflexivity.
  - intros t id Hin. exists (Scenario.channel id "X").
    destruct Hin as [<-|[<-|[<-|[<-|[]]]]]; repeat split; reflexivity.
  - intros t. exists ChannelPrivateError. split; reflexivity.
  - intros t. reflexivity.
  - lia.
  - exists w', pre. split; [exact Hrun | exact Hevs].
Defined.

(** ** Reconciliation, twice *)

(** With the stored ids equal to the live ids the reconciliation does
    nothing at all, whatever the platform would answer. *)
Lemma reconcile_membership_settled (cfg : config) (E : env) (fuel : nat)
    (dialogs : list entity) (w : world) :
  dom (db w) = current_channels_of dialogs ->
  reconcile_membership cfg E fuel dialogs w = (Ret tt, w).
Proof.
  intros Hsame. unfold reconcile_membership, bind, get_all_channels_from_db.
  unfold new_channels_of, removed_channels_of. rewrite db_ids_of_scan, Hsame.
  rewrite difference_diag_L, elements_empty. reflexivity.
Qed.

Lemma find_live (dialogs : list entity) (id : Z) :
  id ∈ current_channels_of dialogs ->
  exists d, List.find (fun d => e_id d =? id) dialogs = Some d
            /\ In d dialogs /\ e_id d = id.
Proof.
  intros Hlive. apply elem_of_current_channels in Hlive as (d0 & Hin & _ & Hid).
  destruct (List.find (fun d => e_id d =? id) dialogs) as [d|] eqn:Hfind.
  - apply find_some in Hfind as [Hd Heq]. apply Z.eqb_eq in Heq. eauto.
  - pose proof (find_none _ _ Hfind d0 Hin) as Hnone. simpl in Hnone.
    apply Z.eqb_neq in Hnone. contradiction.
Qed.

Section Settling.

Context (cfg : config) (E : env) (fuel : nat) (dialogs : list entity).

Hypothesis live_ids_are_channels :
  forall d, In d dialogs -> e_id d ∈ current_channels_of dialogs -> e_is_channel d = true.
Hypothesis resolved :
  forall t d, In d dialogs -> e_is_channel d = true ->
    exists entity,
      get_entity_at E t (PeerEntity d) = inr entity
      /\ e_is_channel entity = true /\ e_id entity = e_id d.
Hypothesis delivered : forall t, deliver_at E t = None.

Lemma process_new_adds (id : Z) (w : world) :
  id ∈ current_channels_of dialogs ->
  exists w' r,
    process_new cfg E (S fuel) dialogs id w = (Ret tt, w')
    /\ db w' = <[id := r]> (db w).
Proof.
  intros Hlive. destruct (find_live dialogs id Hlive) as (d & Hfind & Hin & Hid).
  assert (Hch : e_is_channel d = true).
  { apply live_ids_are_channels; [exact Hin | rewrite Hid; exact Hlive]. }
  destruct (resolved (tick w) d Hin Hch) as (entity & Hent & Hech & Heid).
  unfold process_new. rewrite Hfind. unfold bind at 1.
  rewrite get_channel_info_S, Hent, Hech. cbn [usable add_arguments].
  unfold bind at 1. unfold ret at 1. unfold bind.
  rewrite add_channel_to_db_run, send_admin_notification_run. cbv zeta.
  rewrite delivered. rewrite Heid, Hid. eexists _, _. split; reflexivity.
Qed.

Lemma new_loop (l : list Z) (w : world) :
  (forall id, In id l -> id ∈ current_channels_of dialogs) ->
  exists w',
    for_each l (process_new cfg E (S fuel) dialogs) w = (Ret tt, w')
    /\ dom (db w') = dom (db w) ∪ list_to_set l.
Proof.
  revert w. induction l as [|id l IH]; intros w Hlive.
  - exists w. split; [reflexivity|]. simpl. rewrite right_id_L; [reflexivity|apply _].
  - destruct (process_new_adds id w) as (w1 & r & Hrun & Hdb); [apply Hlive; left; reflexivity|].
    destruct (IH w1) as (w' & Hloop & Hdom); [intros; apply Hlive; right; assumption|].
    exists w'. split.
    + cbn [for_each]. unfold bind. rewrite Hrun. exact Hloop.
    + rewrite Hdom, Hdb, dom_insert_L. simpl.
      apply set_eq. intros x. rewrite !elem_of_union, !elem_of_singleton. tauto.
Qed.

Lemma process_removed_deletes (db_map : gmap Z (Z * row)) (id : Z) (w : world) :
  is_Some (db_map !! id) ->
  exists w',
    process_removed cfg E db_map id w = (Ret tt, w')
    /\ db w' = delete id (db w).
Proof.
  intros [c Hc]. unfold process_removed. rewrite Hc. unfold bind.
  rewrite remove_channel_from_db_run.
  destruct (db w !! id) eqn:Hrow; cbn [when].
  - rewrite send_admin_notification_run. cbv zeta. cbn [tick]. rewrite delivered.
    eexists. split; reflexivity.
  - eexists. split; [reflexivity|]. cbn [db]. symmetry. apply delete_id. exact Hrow.
Qed.

Lemma removed_loop (db_map : gmap Z (Z * row)) (l : list Z) (w : world) :
  (forall id, In id l -> is_Some (db_map !! id)) ->
  exists w',
    for_each l (process_removed cfg E db_map) w = (Ret tt, w')
    /\ dom (db w') = dom (db w) ∖ list_to_set l.
Proof.
  revert w. induction l as [|id l IH]; intros w Hsome.
  - exists w. split; [reflexivity|]. simpl. rewrite difference_empty_L. reflexivity.
  - destruct (process_removed_deletes db_map id w) as (w1 & Hrun & Hdb);
      [apply Hsome; left; reflexivity|].
    destruct (IH w1) as (w' & Hloop & Hdom); [intros; apply Hsome; right; assumption|].
    exists w'. split.
    + cbn [for_each]. unfold bind. rewrite Hrun. exact Hloop.
    + rewrite Hdom, Hdb, dom_delete_L. simpl.
      apply set_eq. intros x.
      rewrite !elem_of_difference, elem_of_union, elem_of_singleton. tauto.
Qed.

(** When every fetch and every delivery of a run succeeds, the run
    leaves exactly the live ids in the table. *)
Lemma reconcile_membership_settles (w : world) :
  exists w',
    reconcile_membership cfg E (S fuel) dialogs w = (Ret tt, w')
    /\ dom (db w') = current_channels_of dialogs.
Proof.
  unfold reconcile_membership. unfold bind at 1. unfold get_all_channels_from_db.
  unfold new_channels_of, removed_channels_of. rewrite db_ids_of_scan.
  set (L := current_channels_of dialogs). set (S0 := dom (db w)).
  destruct (new_loop (elements (L ∖ S0)) w) as (w1 & Hrun1 & Hdom1).
  { intros id Hin. apply list_elem_of_In, elem_of_elements, elem_of_difference in Hin.
    tauto. }
  destruct (removed_loop (dict_by_id (map_to_list (db w))) (elements (S0 ∖ L)) w1)
    as (w2 & Hrun2 & Hdom2).
  { intros id Hin. apply list_elem_of_In, elem_of_elements, elem_of_difference in Hin.
    destruct Hin as [Hin _]. apply elem_of_dom in Hin as [r Hr].
    rewrite (dict_by_id_scan _ _ _ Hr). eauto. }
  exists w2. split.
  - unfold bind. rewrite Hrun1. exact Hrun2.
  - rewrite Hdom2, Hdom1, !list_to_set_elements_L. fold S0.
    apply set_eq. intros x.
    rewrite !elem_of_difference, elem_of_union, elem_of_difference.
    destruct (decide (x ∈ L)); destruct (decide (x ∈ S0)); tauto.
Qed.

End Settling.

(** C2, as amended.  A reconciliation that starts with the stored ids
    equal to the live ids executes no statement, sends no notification
    and makes no call at all: it returns the world as it found it.  The
    second of two runs over the same dialogs is therefore a no-op
    whenever the first run left the stored ids equal to the live ids,
    and the first run does so when every dialog carrying a live id is a
    channel, every fetch answers with a channel of the id asked for, and
    every notification is delivered.  (A channel whose fetch failed in
    the first run is fetched again by the second.) *)
Theorem C2_reconcile_idempotent (cfg : config) (E : env) (fuel : nat)
    (dialogs : list entity) :
  (forall w,
     dom (db w) = current_channels_of dialogs ->
     reconcile_membership cfg E fuel dialogs w = (Ret tt, w))
  /\ ((forall d, In d dialogs -> e_id d ∈ current_channels_of dialogs ->
         e_is_channel d = true) ->
      (forall t d, In d dialogs -> e_is_channel d = true ->
         exists entity,
           get_entity_at E t (PeerEntity d) = inr entity
           /\ e_is_channel entity = true /\ e_id entity = e_id d) ->
      (forall t, deliver_at E t = None) ->
      (0 < fuel)%nat ->
      forall w,
        exists w1,
          reconcile_membership cfg E fuel dialogs w = (Ret tt, w1)
          /\ dom (db w1) = current_channels_of dialogs
          /\ reconcile_membership cfg E fuel dialogs w1 = (Ret tt, w1)
          /\ executed (events_since w1 (snd (reconcile_membership cfg E fuel dialogs w1))) = []
          /\ notified (events_since w1 (snd (reconcile_membership cfg E fuel dialogs w1))) = []).
Proof.
  split.
  - intros w. apply reconcile_membership_settled.
  - intros Hchannels Hresolved Hdelivered Hfuel w.
    destruct fuel as [|fuel']; [lia|].
    destruct (reconcile_membership_settles cfg E fuel' dialogs
                Hchannels Hresolved Hdelivered w) as (w1 & Hrun & Hdom).
    exists w1. split; [exact Hrun|]. split; [exact Hdom|].
    rewrite (reconcile_membership_settled cfg E (S fuel') dialogs w1 Hdom).
    split; [reflexivity|]. unfold events_since. cbn [snd]. rewrite drop_all.
    split; reflexivity.
Qed.

Lemma C2_reconcile_idempotent_witness :
  exists w1,
    reconcile_membership Scenario.cfg (Scenario.steady 200 Scenario.now) 1
      Scenario.two_dialogs Scenario.tracked = (Ret tt, w1)
    /\ reconcile_membership Scenario.cfg (Scenario.steady 200 Scenario.now) 1
         Scenario.two_dialogs w1 = (Ret tt, w1).
Proof.
  destruct (proj2 (C2_reconcile_idempotent Scenario.cfg (Scenario.steady 200 Scenario.now) 1
                     Scenario.two_dialogs)) with (w := Scenario.tracked)
    as (w1 & Hrun & _ & Hagain & _).
  - intros d [<-|[<-|[]]] _; reflexivity.
  - intros t d _ Hch. exists d. repeat split; [exact Hch].
  - intros t. reflexivity.
  - lia.
  - exists w1. split; [exact Hrun | exact Hagain].
Defined.

(** C2 as stated fails when a fetch of the first run fails.  The bot is
    in channels 5 and 7 and tracks 5; the first run finds 7 private and
    changes nothing, and the second run, over the same dialogs and the
    unchanged table, adds 7 and notifies. *)
Lemma C2_counterexample :
  let E := Scenario.flaky 200 Scenario.now in
  let w0 := Scenario.tracked in
  let w1 := snd (reconcile_membership Scenario.cfg E 1 Scenario.two_dialogs w0) in
  let w2 := snd (reconcile_membership Scenario.cfg E 1 Scenario.two_dialogs w1) in
  db w1 = db w0
  /\ executed (events_since w1 w2) =
     [InsertOrReplace 7
        [SetTitle (Some "N"); SetAccessHash (Some 77);
         SetLink (Some "https://t.me/c/7"); SetSubscribers 200]]
  /\ notified (events_since w1 w2) = [msg_detected "N" 200].
Proof. cbv zeta. repeat split; vm_compute; reflexivity. Qed.

(** ** Worked runs *)

(** The bot leaves channel 5: two calls of [get_me], the DELETE, and the
    notification with title, count and link. *)
Example leave_event_run :
  let run := handle_chat_action Scenario.cfg (Scenario.steady 200 Scenario.now) 1
               Scenario.left_5 Scenario.tracked in
  fst run = Ret tt
  /\ db (snd run) = ∅
  /\ trace (snd run) =
     [EvGetMe; EvGetMe; EvExecute (Delete 5);
      EvSendMessage 999
        (msg_left 5 (Some (5, mkRow (Some "X") (Some 77) (Some "https://t.me/c/5") 200 1000)))].
Proof. cbv zeta. repeat split; vm_compute; reflexivity. Qed.

(** One poll cycle while channel 5 has gone from 200 to 301 subscribers:
    nothing to reconcile, one UPDATE, one notification, the pause after
    the first channel and the sleep until the next cycle. *)
Example poll_cycle_run :
  let run := poll_cycle Scenario.cfg (Scenario.member_of_5 301 Scenario.now) 1
               Scenario.tracked in
  fst run = Ret tt
  /\ db (snd run) !! 5
     = Some (mkRow (Some "X") (Some 77) (Some "https://t.me/c/5") 301 Scenario.now)
  /\ executed (trace (snd run))
     = [Update [SetSubscribers 301; SetLastChecked Scenario.now] 5]
  /\ notified (trace (snd run))
     = [msg_change (5, mkRow (Some "X") (Some 77) (Some "https://t.me/c/5") 200 1000) 301]
  /\ slept (trace (snd run)) = [inject_Z 2; inject_Z 300].
Proof. cbv zeta. repeat split; vm_compute; reflexivity. Qed.

(** The same cycle with a change of 50: the row, [last_checked]
    included, stays as it was. *)
Example poll_cycle_quiet_run :
  let run := poll_cycle Scenario.cfg (Scenario.member_of_5 250 Scenario.now) 1
               Scenario.tracked in
  db (snd run) = db Scenario.tracked
  /\ executed (trace (snd run)) = []
  /\ notified (trace (snd run)) = [].
Proof. cbv zeta. repeat split; vm_compute; reflexivity. Qed.

(** * Further properties *)

(** ** Frames and exceptions, compositionally *)

Section Frames.

Context (P : event -> Prop) (R : gmap Z row -> gmap Z row -> Prop).
Hypothesis R_refl : forall t, R t t.
Hypothesis R_trans : forall t1 t2 t3, R t1 t2 -> R t2 t3 -> R t1 t3.

Lemma frames_ret {A} (a : A) : frames P R (ret a).
Proof. intros w. exists []. simpl. rewrite app_nil_r. auto. Qed.

Lemma frames_raise {A} (e : exn) : frames P R (@raise A e).
Proof. intros w. exists []. simpl. rewrite app_nil_r. auto. Qed.

Lemma frames_out_of_fuel {A} : frames P R (fun w => (@OutOfFuel A, w)).
Proof. intros w. exists []. simpl. rewrite app_nil_r. auto. Qed.

Lemma frames_bind {A B} (m : M A) (k : A -> M B) :
  frames P R m -> (forall a, frames P R (k a)) -> frames P R (bind m k).
Proof.
  intros Hm Hk w. unfold bind.
  destruct (Hm w) as (evs1 & Htr1 & HP1 & HR1).
  destruct (m w) as [[a|e|] w1]; simpl in *; try solve [exists evs1; auto].
  destruct (Hk a w1) as (evs2 & Htr2 & HP2 & HR2).
  exists (evs1 ++ evs2). rewrite Htr2, Htr1, app_assoc.
  split; [reflexivity|]. split; [apply Forall_app; split; assumption|]. eauto.
Qed.

Lemma frames_try_except {A} (m : M A) (h : exn -> M A) :
  frames P R m -> (forall e, frames P R (h e)) -> frames P R (try_except m h).
Proof.
  intros Hm Hh w. unfold try_except.
  destruct (Hm w) as (evs1 & Htr1 & HP1 & HR1).
  destruct (m w) as [[a|e|] w1]; simpl in *; try solve [exists evs1; auto].
  destruct (Hh e w1) as (evs2 & Htr2 & HP2 & HR2).
  exists (evs1 ++ evs2). rewrite Htr2, Htr1, app_assoc.
  split; [reflexivity|]. split; [apply Forall_app; split; assumption|]. eauto.
Qed.

Lemma frames_when (b : bool) (m : M unit) : frames P R m -> frames P R (when b m).
Proof. destruct b; simpl; [auto | intros _; apply frames_ret]. Qed.

Lemma frames_for_each {A} (l : list A) (body : A -> M unit) :
  (forall x, In x l -> frames P R (body x)) -> frames P R (for_each l body).
Proof.
  induction l as [|x l IH]; intros Hbody; simpl; [apply frames_ret|].
  apply frames_bind; [apply Hbody; left; reflexivity|].
  intros _. apply IH. intros y Hy. apply Hbody. right. exact Hy.
Qed.

Lemma frames_for_fold {A S} (l : list A) (s : S) (body : S -> A -> M S) :
  (forall s x, In x l -> frames P R (body s x)) -> frames P R (for_fold l s body).
Proof.
  revert s. induction l as [|x l IH]; intros s Hbody; simpl; [apply frames_ret|].
  apply frames_bind; [apply Hbody; left; reflexivity|].
  intros s'. apply IH. intros s'' y Hy. apply Hbody. right. exact Hy.
Qed.

Lemma frames_external {A} (ev : event) (answer : world -> exn + A) :
  P ev -> frames P R (fun w => external ev (answer w) w).
Proof.
  intros Hev w. exists [ev]. unfold external.
  destruct (answer w); simpl; auto.
Qed.

Lemma frames_deliver (E : env) (ev : event) : P ev -> frames P R (deliver E ev).
Proof.
  intros Hev w. exists [ev]. unfold deliver.
  destruct (deliver_at E (tick w)); simpl; auto.
Qed.

Lemma frames_sleep (d : Q) : P (EvSleep d) -> frames P R (asyncio_sleep d).
Proof. intros Hev w. exists [EvSleep d]. simpl. auto. Qed.

Lemma frames_time_time (E : env) : frames P R (time_time E).
Proof. intros w. exists []. simpl. rewrite app_nil_r. auto. Qed.

Lemma frames_scan : frames P R get_all_channels_from_db.
Proof. intros w. exists []. simpl. rewrite app_nil_r. auto. Qed.

Lemma frames_execute (s : statement) :
  P (EvExecute s) -> (forall t, R t (fst (execute s t))) -> frames P R (cursor_execute s).
Proof.
  intros Hev Hexec w. exists [EvExecute s]. unfold cursor_execute.
  specialize (Hexec (db w)). destruct (execute s (db w)) as [t rowcount]. simpl in *. auto.
Qed.

Lemma frames_get_channel_info (E : env) (fuel : nat) (p : peer) :
  (forall ev, fetch_event p ev -> P ev) -> frames P R (get_channel_info E fuel p).
Proof.
  intros Hfetch. induction fuel as [|fuel IH]; [apply frames_out_of_fuel|].
  cbn [get_channel_info]. apply frames_try_except.
  - apply frames_bind.
    + apply (frames_external (EvGetEntity p) (fun w => get_entity_at E (tick w) p)).
      apply Hfetch. reflexivity.
    + intros entity. destruct (e_is_channel entity); [|apply frames_ret].
      apply frames_bind; [|intros; apply frames_ret].
      apply frames_try_except; [|intros; apply frames_ret].
      apply frames_bind; [|intros; apply frames_ret].
      apply (frames_external (EvGetFullChannel entity)
               (fun w => get_full_channel_at E (tick w) entity)).
      apply Hfetch. exact I.
  - intros e. destruct e; try apply frames_ret.
    apply frames_bind; [|intros _; exact IH].
    apply frames_sleep. apply Hfetch. exact I.
Qed.

Lemma frames_send_admin_notification (cfg : config) (E : env) (message : string) :
  P (EvSendMessage (ADMIN_ID cfg) message) -> (forall d, P (EvSleep d)) ->
  frames P R (send_admin_notification cfg E message).
Proof.
  intros Hsend Hsleep. unfold send_admin_notification, client_send_message.
  apply frames_try_except; [apply frames_deliver; exact Hsend|].
  intros e. destruct e; try apply frames_ret.
  apply frames_bind; [apply frames_sleep; apply Hsleep|].
  intros _. apply frames_deliver. exact Hsend.
Qed.

End Frames.

Lemma frames_weaken {A} (P P' : event -> Prop) (R R' : gmap Z row -> gmap Z row -> Prop)
    (m : M A) :
  (forall ev, P ev -> P' ev) -> (forall t t', R t t' -> R' t t') ->
  frames P R m -> frames P' R' m.
Proof.
  intros HP HR Hm w. destruct (Hm w) as (evs & Htr & Hevs & Hdb).
  exists evs. split; [exact Htr|]. split; [|auto].
  eapply Forall_impl; [exact Hevs | exact HP].
Qed.

Lemma never_raises_ret {A} (a : A) : never_raises (ret a).
Proof. intros w e. discriminate. Qed.

Lemma never_raises_sleep (d : Q) : never_raises (asyncio_sleep d).
Proof. intros w e. discriminate. Qed.

Lemma never_raises_bind {A B} (m : M A) (k : A -> M B) :
  never_raises m -> (forall a, never_raises (k a)) -> never_raises (bind m k).
Proof.
  intros Hm Hk w e. unfold bind. specialize (Hm w).
  destruct (m w) as [[a|e'|] w1]; simpl in *.
  - apply Hk.
  - exfalso. apply (Hm e'). reflexivity.
  - discriminate.
Qed.

Lemma never_raises_try_except {A} (m : M A) (h : exn -> M A) :
  (forall e, never_raises (h e)) -> never_raises (try_except m h).
Proof.
  intros Hh w e. unfold try_except.
  destruct (m w) as [[a|e'|] w1]; simpl; try discriminate. apply Hh.
Qed.

Lemma never_raises_when (b : bool) (m : M unit) : never_raises m -> never_raises (when b m).
Proof. destruct b; simpl; [auto | intros _; apply never_raises_ret]. Qed.

Lemma never_raises_for_each {A} (l : list A) (body : A -> M unit) :
  (forall x, never_raises (body x)) -> never_raises (for_each l body).
Proof.
  intros Hbody. induction l as [|x l IH]; simpl; [apply never_raises_ret|].
  apply never_raises_bind; [apply Hbody | intros _; exact IH].
Qed.

Lemma never_raises_get_channel_info (E : env) (fuel : nat) (p : peer) :
  never_raises (get_channel_info E fuel p).
Proof.
  induction fuel as [|fuel IH]; [intros w e; discriminate|].
  cbn [get_channel_info]. apply never_raises_try_except.
  intros e. destruct e; try apply never_raises_ret.
  apply never_raises_bind; [apply never_raises_sleep | intros _; exact IH].
Qed.

(** ** The fetch *)

(** X1. Whatever the platform answers and whatever the fuel,
    [get_channel_info] lets no exception out, leaves the table as it
    was, and does nothing but call [get_entity] on the peer it was
    given, send GetFullChannelRequest and sleep. *)
Theorem X1_fetch_is_contained (E : env) (fuel : nat) (p : peer) :
  never_raises (get_channel_info E fuel p)
  /\ frames (fetch_event p) eq (get_channel_info E fuel p).
Proof.
  split; [apply never_raises_get_channel_info|].
  apply frames_get_channel_info; [reflexivity | intros; congruence | auto].
Qed.



Lemma usable_error_info_iff (p : peer) (e : exn) :
  (forall s, e <> FloodWaitError s) ->
  (usable (error_info p e) = true <-> e = OtherError "").
Proof.
  intros Hnot.
  destruct e; try (split; intros H; [vm_compute in H|]; discriminate H).
  - exfalso. eapply Hnot. reflexivity.
  - simpl. destruct (decide (msg = "")) as [->|Hne]; split; try reflexivity.
    + intros H. discriminate H.
    + intros [= H]. contradiction.
Qed.

(** X3. An exception of [get_entity] other than FloodWaitError ends the
    fetch at once, after that one call, with an error dictionary for the
    peer.  The dictionary is rejected by [not channel_info.get('error')]
    unless the exception was an unexpected one with an empty text: then
    it passes the test, and reading its subscriber count raises
    KeyError. *)
Theorem X3_error_dictionary (E : env) (fuel : nat) (p : peer) (e : exn) (w : world) :
  get_entity_at E (tick w) p = inl e ->
  (forall s, e <> FloodWaitError s) ->
  exists title error,
    get_channel_info E (S fuel) p w
    = (Ret (Some (ErrorInfo p title error)), call (EvGetEntity p) w)
    /\ (usable (ErrorInfo p title error) = true <-> e = OtherError "")
    /\ (not_accessible e = true -> usable (ErrorInfo p title error) = false)
    /\ forall w', fst (subscribers_of (ErrorInfo p title error) w')
                  = Raise (KeyError "subscribers").
Proof.
  intros Hraise Hnot. rewrite get_channel_info_S, Hraise.
  pose proof (usable_error_info_iff p e Hnot) as Hiff.
  pose proof (usable_error_info p e) as Hacc.
  destruct e; try (exfalso; eapply Hnot; reflexivity);
    eexists _, _; (split; [reflexivity|]); (split; [exact Hiff|]);
    (split; [exact Hacc|]); reflexivity.
Qed.

Lemma X3_error_dictionary_witness :
  exists title error,
    get_channel_info Cases.timing_out 1 (PeerId 5) Scenario.tracked
    = (Ret (Some (ErrorInfo (PeerId 5) title error)),
       call (EvGetEntity (PeerId 5)) Scenario.tracked)
    /\ usable (ErrorInfo (PeerId 5) title error) = true.
Proof.
  destruct (X3_error_dictionary Cases.timing_out 0 (PeerId 5) (OtherError "")
              Scenario.tracked) as (title & error & Hrun & Hiff & _).
  - reflexivity.
  - intros s. discriminate.
  - exists title, error. split; [exact Hrun|]. apply Hiff. reflexivity.
Defined.

(** ** A cycle cut short *)

Lemma process_new_key_error (cfg : config) (E : env) (fuel : nat)
    (dialogs : list entity) (id : Z) (w : world) :
  (forall t p, get_entity_at E t p = inl (OtherError "")) ->
  id ∈ current_channels_of dialogs ->
  exists d,
    In d dialogs
    /\ process_new cfg E (S fuel) dialogs id w
       = (Raise (KeyError "subscribers"), call (EvGetEntity (PeerEntity d)) w).
Proof.
  intros Hfail Hlive. destruct (find_live dialogs id Hlive) as (d & Hfind & Hin & _).
  exists d. split; [exact Hin|].
  unfold process_new. rewrite Hfind. unfold bind at 1.
  rewrite get_channel_info_S, Hfail. reflexivity.
Qed.

(** X4. While the gateway fails with an exception whose text is empty
    (a timeout, say), a poll cycle that sees one channel to add stops at
    the first such channel: the KeyError raised on its dictionary leaves
    the loop, so the cycle makes that single lookup, removes nothing,
    refreshes nothing, and sleeps until the next cycle. *)
Theorem X4_cycle_cut_short (cfg : config) (E : env) (fuel : nat)
    (dialogs : list entity) (id : Z) (w : world) :
  get_dialogs_at E (tick w) = inr dialogs ->
  (forall t p, get_entity_at E t p = inl (OtherError "")) ->
  id ∈ current_channels_of dialogs -> db w !! id = None ->
  (0 < fuel)%nat ->
  exists d,
    In d dialogs
    /\ fst (poll_cycle cfg E fuel w) = Ret tt
    /\ events_since w (snd (poll_cycle cfg E fuel w))
       = [EvGetDialogs; EvGetEntity (PeerEntity d);
          EvSleep (inject_Z (POLLING_INTERVAL cfg))]
    /\ db (snd (poll_cycle cfg E fuel w)) = db w.
Proof.
  intros Hdialogs Hfail Hlive Hfresh Hfuel.
  destruct fuel as [|fuel]; [lia|].
  set (w1 := call EvGetDialogs w).
  assert (Hnew : id ∈ new_channels_of dialogs (map_to_list (db w1))).
  { unfold new_channels_of. rewrite db_ids_of_scan. apply elem_of_difference.
    split; [exact Hlive|]. intros Hin. apply elem_of_dom in Hin as [r Hr].
    simpl in Hr. congruence. }
  destruct (elements (new_channels_of dialogs (map_to_list (db w1)))) as [|x l] eqn:Hel.
  { apply elements_empty_inv in Hel. apply leibniz_equiv in Hel.
    rewrite Hel in Hnew. apply not_elem_of_empty in Hnew. contradiction. }
  assert (Hx : x ∈ current_channels_of dialogs).
  { assert (Hin : x ∈ new_channels_of dialogs (map_to_list (db w1))).
    { apply elem_of_elements. rewrite Hel. left. }
    unfold new_channels_of in Hin. apply elem_of_difference in Hin. tauto. }
  destruct (process_new_key_error cfg E fuel dialogs x w1 Hfail Hx) as (d & Hd & Hrun).
  exists d. split; [exact Hd|].
  assert (Hcycle : poll_cycle cfg E (S fuel) w =
            (Ret tt, asleep (inject_Z (POLLING_INTERVAL cfg))
                       (call (EvGetEntity (PeerEntity d)) w1))).
  { unfold poll_cycle. unfold bind at 1. unfold try_except. unfold bind at 1.
    unfold client_get_dialogs, external. rewrite Hdialogs. fold w1.
    unfold bind at 1. unfold reconcile_membership. unfold bind at 1.
    unfold get_all_channels_from_db. unfold bind at 1. rewrite Hel.
    cbn [for_each]. unfold bind at 1. rewrite Hrun. reflexivity. }
  rewrite Hcycle. split; [reflexivity|]. split; [|reflexivity].
  apply events_since_app. simpl. rewrite <- !app_assoc. reflexivity.
Qed.

Lemma X4_cycle_cut_short_witness :
  exists d,
    In d Scenario.two_dialogs
    /\ events_since Scenario.tracked
         (snd (poll_cycle Scenario.cfg Cases.timing_out 1 Scenario.tracked))
       = [EvGetDialogs; EvGetEntity (PeerEntity d); EvSleep (inject_Z 300)].
Proof.
  destruct (X4_cycle_cut_short Scenario.cfg Cases.timing_out 1 Scenario.two_dialogs 7
              Scenario.tracked) as (d & Hd & _ & Hevs & _).
  - reflexivity.
  - intros t p. reflexivity.
  - apply elem_of_current_channels. exists (Scenario.channel 7 "N").
    split; [right; left; reflexivity|]. split; reflexivity.
  - reflexivity.
  - lia.
  - exists d. split; [exact Hd | exact Hevs].
Defined.

(** ** The notifier, in full *)

(** X5. [send_admin_notification] never touches the table.  A delivery
    that fails for a reason other than a rate limit is swallowed: one
    attempt, no retry, a normal return.  A rate-limited delivery is
    retried once, after a sleep of exactly the seconds asked for; an
    exception leaves the notifier only when that retry fails, and it is
    the retry's exception. *)
Theorem X5_notifier (cfg : config) (E : env) (message : string) (w : world) :
  let run := send_admin_notification cfg E message w in
  let send := EvSendMessage (ADMIN_ID cfg) message in
  db (snd run) = db w
  /\ (forall e, fst run = Raise e <->
        exists s, deliver_at E (tick w) = Some (FloodWaitError s)
                  /\ deliver_at E (S (tick w)) = Some e)
  /\ (forall s, deliver_at E (tick w) = Some (FloodWaitError s) ->
        events_since w (snd run) = [send; EvSleep (inject_Z s); send])
  /\ ((forall s, deliver_at E (tick w) <> Some (FloodWaitError s)) ->
        events_since w (snd run) = [send] /\ fst run = Ret tt).
Proof.
  cbv zeta. rewrite send_admin_notification_run. cbv zeta.
  destruct (deliver_at E (tick w)) as [x|] eqn:Hfirst.
  - destruct x;
      try (split; [reflexivity|]; split;
           [intros e; split; [intros H; discriminate H | intros (s & H & _); discriminate H]|];
           split; [intros s H; discriminate H|]; intros _; since; split; reflexivity).
    destruct (deliver_at E (S (tick w))) as [y|] eqn:Hsecond; simpl.
    + split; [reflexivity|]. split.
      { intros e. split.
        - intros [= <-]. exists seconds. split; reflexivity.
        - intros (s & _ & [= <-]). reflexivity. }
      split.
      { intros s [= <-]. since. reflexivity. }
      intros Hnot. exfalso. apply (Hnot seconds). reflexivity.
    + split; [reflexivity|]. split.
      { intros e. split; [intros H; discriminate H | intros (s & _ & H); discriminate H]. }
      split.
      { intros s [= <-]. since. reflexivity. }
      intros Hnot. exfalso. apply (Hnot seconds). reflexivity.
  - split; [reflexivity|]. split.
    { intros e. split; [intros H; discriminate H | intros (s & H & _); discriminate H]. }
    split; [intros s H; discriminate H|]. intros _. since. split; reflexivity.
Qed.

Lemma X5_notifier_witness :
  fst (send_admin_notification Scenario.cfg Cases.undeliverable "hello" Scenario.tracked)
  = Raise (OtherError "down").
Proof.
  apply (proj1 (proj2 (X5_notifier Scenario.cfg Cases.undeliverable "hello" Scenario.tracked))).
  exists 4. split; reflexivity.
Defined.

(** ** The chat event handler *)

(** X6. The handler acts only on the bot's own membership in a channel.
    An event about another user costs one call of [get_me] and nothing
    else; an event about the bot in a chat that is not a channel, or
    carrying none of added, joined, left, kicked, costs the two calls
    of [get_me] and nothing else. *)
Theorem X6_event_ignored (cfg : config) (E : env) (fuel : nat)
    (event : chat_action) (w : world) :
  (forall me,
     get_me_at E (tick w) = inr me -> me <> ev_user_id event ->
     handle_chat_action cfg E fuel event w = (Ret tt, call EvGetMe w))
  /\ (get_me_at E (tick w) = inr (ev_user_id event) ->
      get_me_at E (S (tick w)) = inr (ev_user_id event) ->
      ev_is_channel event = false
      \/ (ev_user_added event = false /\ ev_user_joined event = false
          /\ ev_user_left event = false /\ ev_user_kicked event = false) ->
      handle_chat_action cfg E fuel event w = (Ret tt, call EvGetMe (call EvGetMe w))).
Proof.
  split.
  - intros me Hme Hother.
    unfold handle_chat_action, bind, client_get_me, external. rewrite Hme.
    rewrite (proj2 (Z.eqb_neq _ _)) by congruence. reflexivity.
  - intros Hme0 Hme1 Hskip.
    unfold handle_chat_action, bind, client_get_me, external.
    rewrite Hme0, Z.eqb_refl. cbn [tick call]. rewrite Hme1, Z.eqb_refl.
    destruct Hskip as [Hch | (Ha & Hj & Hl & Hk)].
    + rewrite Hch.
      destruct (ev_user_added event || ev_user_joined event); [reflexivity|].
      destruct (ev_user_left event || ev_user_kicked event); reflexivity.
    + rewrite Ha, Hj, Hl, Hk. reflexivity.
Qed.

Lemma X6_event_ignored_witness :
  handle_chat_action Scenario.cfg (Scenario.steady 200 Scenario.now) 1
    Cases.other_left_5 Scenario.tracked
  = (Ret tt, call EvGetMe Scenario.tracked).
Proof.
  apply (proj1 (X6_event_ignored Scenario.cfg (Scenario.steady 200 Scenario.now) 1
                  Cases.other_left_5 Scenario.tracked) 1).
  - reflexivity.
  - discriminate.
Defined.

(** X7. When the bot leaves a channel that is not tracked, the handler
    still executes the DELETE, which matches no row: the table is
    unchanged and no notification is sent. *)
Theorem X7_leave_untracked (cfg : config) (E : env) (fuel : nat)
    (event : chat_action) (w : world) :
  get_me_at E (tick w) = inr (ev_user_id event) ->
  get_me_at E (S (tick w)) = inr (ev_user_id event) ->
  ev_user_added event = false -> ev_user_joined event = false ->
  ev_user_left event || ev_user_kicked event = true ->
  ev_is_channel event = true ->
  db w !! ev_chat_id event = None ->
  let run := handle_chat_action cfg E fuel event w in
  fst run = Ret tt
  /\ db (snd run) = db w
  /\ events_since w (snd run) = [EvGetMe; EvGetMe; EvExecute (Delete (ev_chat_id event))].
Proof.
  intros Hme0 Hme1 Hadd Hjoin Hleft Hch Hrow run.
  assert (Hrun : run =
            (Ret tt,
             mkWorld (db w) (S (S (tick w)))
               (((trace w ++ [EvGetMe]) ++ [EvGetMe])
                ++ [EvExecute (Delete (ev_chat_id event))]))).
  { subst run. unfold handle_chat_action, bind, client_get_me, external.
    rewrite Hme0, Z.eqb_refl. cbn [tick call]. rewrite Hme1, Z.eqb_refl.
    rewrite Hadd, Hjoin, Hleft, Hch. cbn [orb].
    unfold get_all_channels_from_db. cbn [db call].
    rewrite remove_channel_from_db_run. cbn [db call]. rewrite Hrow. reflexivity. }
  rewrite Hrun. split; [reflexivity|]. split; [reflexivity|]. since. reflexivity.
Qed.

Lemma X7_leave_untracked_witness :
  events_since Scenario.tracked
    (snd (handle_chat_action Scenario.cfg (Scenario.steady 200 Scenario.now) 1
            Cases.left_9 Scenario.tracked))
  = [EvGetMe; EvGetMe; EvExecute (Delete 9)].
Proof.
  apply (X7_leave_untracked Scenario.cfg (Scenario.steady 200 Scenario.now) 1
           Cases.left_9 Scenario.tracked); reflexivity.
Defined.

Lemma msg_added_contains (title : string) (id subscribers : Z) (link : string) :
  contains (msg_added title id subscribers link) title
  /\ contains (msg_added title id subscribers link) (str id)
  /\ contains (msg_added title id subscribers link) (str subscribers)
  /\ contains (msg_added title id subscribers link) link.
Proof.
  unfold msg_added. repeat split.
  - do 4 apply contains_skip. apply contains_here.
  - do 7 apply contains_skip. apply contains_here.
  - do 10 apply contains_skip. apply contains_here.
  - do 13 apply contains_skip. apply contains_end.
Qed.

(** X8. When the bot is added to or joins a channel, the handler fetches
    [event.chat_id].  If the lookup answers with a channel, its row is
    written under the id the gateway reports, with the count read from
    GetFullChannelRequest (0 if that fails) and [last_checked] 0, and the
    notification that follows names title, id, count and link.  If the
    channel is not accessible the handler stops after the lookup: no
    row, no notification. *)
Theorem X8_join_event (cfg : config) (E : env) (fuel : nat)
    (event : chat_action) (w : world) :
  get_me_at E (tick w) = inr (ev_user_id event) ->
  get_me_at E (S (tick w)) = inr (ev_user_id event) ->
  ev_user_added event || ev_user_joined event = true ->
  ev_is_channel event = true ->
  let run := handle_chat_action cfg E (S fuel) event w in
  let p := PeerId (ev_chat_id event) in
  (forall entity,
     get_entity_at E (S (S (tick w))) p = inr entity ->
     e_is_channel entity = true ->
     let n := count_of (get_full_channel_at E (S (S (S (tick w)))) entity) in
     db (snd run) = <[e_id entity := row_of entity n]> (db w)
     /\ exists text rest,
          events_since w (snd run) =
            [EvGetMe; EvGetMe; EvGetEntity p; EvGetFullChannel entity;
             EvExecute (InsertOrReplace (e_id entity)
                          [SetTitle (Some (e_title entity));
                           SetAccessHash (Some (e_access_hash entity));
                           SetLink (Some (link_of entity)); SetSubscribers n]);
             EvSendMessage (ADMIN_ID cfg) text] ++ rest
          /\ executed rest = []
          /\ contains text (e_title entity) /\ contains text (str (e_id entity))
          /\ contains text (str n) /\ contains text (link_of entity))
  /\ (forall e,
        get_entity_at E (S (S (tick w))) p = inl e ->
        not_accessible e = true ->
        fst run = Ret tt
        /\ db (snd run) = db w
        /\ events_since w (snd run) = [EvGetMe; EvGetMe; EvGetEntity p]).
Proof.
  intros Hme0 Hme1 Hjoin Hch run p. subst p.
  assert (Hhead : run =
            (let w2 := call EvGetMe (call EvGetMe w) in
             let '(r, w3) := get_channel_info E (S fuel) (PeerId (ev_chat_id event)) w2 in
             match r with
             | Ret (Some ci) =>
                 if usable ci then
                   bind (add_arguments ci) (fun arguments =>
                     let '(id, title, access_hash, link, subscribers) := arguments in
                     bind (add_channel_to_db id title access_hash link subscribers)
                       (fun added =>
                          when added
                            (send_admin_notification cfg E
                               (msg_added title id subscribers link)))) w3
                 else (Ret tt, w3)
             | Ret None => (Ret tt, w3)
             | Raise x => (Raise x, w3)
             | OutOfFuel => (OutOfFuel, w3)
             end)).
  { subst run. unfold handle_chat_action. unfold bind at 1.
    unfold client_get_me at 1. unfold external. rewrite Hme0, Z.eqb_refl.
    unfold bind at 1. unfold client_get_me at 1. unfold external. cbn [tick call].
    rewrite Hme1, Z.eqb_refl, Hjoin, Hch. unfold bind at 1. cbv zeta.
    destruct (get_channel_info E (S fuel) (PeerId (ev_chat_id event))
                (call EvGetMe (call EvGetMe w))) as [[[ci|]|x|] w3]; try reflexivity.
    destruct (usable ci); reflexivity. }
  split.
  - intros entity Hent Hech n.
    assert (Hrun : run =
              send_admin_notification cfg E
                (msg_added (e_title entity) (e_id entity) n (link_of entity))
                (mkWorld (<[e_id entity := row_of entity n]> (db w))
                   (S (S (S (S (tick w)))))
                   (((((trace w ++ [EvGetMe]) ++ [EvGetMe])
                      ++ [EvGetEntity (PeerId (ev_chat_id event))])
                     ++ [EvGetFullChannel entity])
                    ++ [EvExecute (InsertOrReplace (e_id entity)
                                     [SetTitle (Some (e_title entity));
                                      SetAccessHash (Some (e_access_hash entity));
                                      SetLink (Some (link_of entity));
                                      SetSubscribers n])]))).
    { rewrite Hhead. cbv zeta.
      rewrite get_channel_info_S. cbn [tick call]. rewrite Hent, Hech.
      cbn [usable add_arguments]. unfold bind at 1. unfold ret at 1. unfold bind.
      rewrite add_channel_to_db_run. reflexivity. }
    rewrite Hrun. rewrite send_admin_notification_run. cbv zeta. cbn [tick].
    destruct (msg_added_contains (e_title entity) (e_id entity) n (link_of entity))
      as (Ht & Hi & Hn & Hl).
    destruct (deliver_at E (S (S (S (S (tick w)))))) as [x|];
      [destruct x; try destruct (deliver_at E (S (S (S (S (S (tick w))))))) as [y|]|];
      since; (split; [reflexivity|]);
      eexists _, _; (split; [reflexivity|]); (split; [reflexivity|]);
      repeat split; first [exact Ht | exact Hi | exact Hn | exact Hl].
  - intros e Hraise Hkind.
    assert (Hrun : run =
              (Ret tt,
               call (EvGetEntity (PeerId (ev_chat_id event)))
                 (call EvGetMe (call EvGetMe w)))).
    { rewrite Hhead. cbv zeta.
      rewrite get_channel_info_S. cbn [tick call]. rewrite Hraise.
      destruct e; try discriminate Hkind; reflexivity. }
    rewrite Hrun. since. repeat split; reflexivity.
Qed.

Lemma X8_join_event_witness :
  db (snd (handle_chat_action Scenario.cfg (Scenario.steady 200 Scenario.now) 1
             Cases.joined_9 Scenario.tracked))
  = <[9 := mkRow (Some "X") (Some 77) (Some "https://t.me/c/9") 200 0]> (db Scenario.tracked)
  /\ db (snd (handle_chat_action Scenario.cfg (Scenario.without_102 200 Scenario.now) 1
                Cases.joined_102 Scenario.tracked))
     = db Scenario.tracked.
Proof.
  split.
  - apply (proj1 (X8_join_event Scenario.cfg (Scenario.steady 200 Scenario.now) 0
                    Cases.joined_9 Scenario.tracked eq_refl eq_refl eq_refl eq_refl)
             (Scenario.channel 9 "X")); reflexivity.
  - apply (proj2 (X8_join_event Scenario.cfg (Scenario.without_102 200 Scenario.now) 0
                    Cases.joined_102 Scenario.tracked eq_refl eq_refl eq_refl eq_refl)
             ChannelPrivateError); reflexivity.
Defined.

(** ** The range command, in general *)

(** X9. The two ids of a range may be given in either order: the
    command swaps them when the first is the larger, so both orders run
    the same. *)
Theorem X9_range_order (cfg : config) (E : env) (percent_completed : Z -> Z -> Z)
    (fuel : nat) (a b : Z) :
  add_range_command cfg E percent_completed fuel a b
  = add_range_command cfg E percent_completed fuel b a.
Proof.
  unfold add_range_command.
  destruct (Z.gtb_spec a b) as [Hab|Hab]; destruct (Z.gtb_spec b a) as [Hba|Hba];
    try reflexivity; try lia.
  assert (a = b) by lia. subst b. reflexivity.
Qed.

Lemma In_enumerate_from {A} (l : list A) (k i : Z) (x : A) :
  In (i, x) (enumerate_from k l) -> In x l.
Proof.
  revert k. induction l as [|y l IH]; intros k; simpl; [tauto|].
  intros [[= _ ->] | Hin]; [left; reflexivity | right; eapply IH; exact Hin].
Qed.

Lemma keeps_rows_refl (t : gmap Z row) : keeps_rows t t.
Proof. intros id H. exact H. Qed.

Lemma keeps_rows_trans (t1 t2 t3 : gmap Z row) :
  keeps_rows t1 t2 -> keeps_rows t2 t3 -> keeps_rows t1 t3.
Proof. intros H12 H23 id H. apply H23, H12, H. Qed.

Lemma keeps_rows_insert (id : Z) (cols : list assignment) (t : gmap Z row) :
  keeps_rows t (fst (execute (InsertOrReplace id cols) t)).
Proof.
  intros k Hk. simpl. destruct (decide (id = k)) as [->|Hne].
  - rewrite lookup_insert_eq. eauto.
  - rewrite lookup_insert_ne by exact Hne. exact Hk.
Qed.

(** Splits a frame goal along the structure of the computation. *)
Ltac frames_go refl trans :=
  repeat first
    [ apply (frames_ret _ _ refl)
    | apply (frames_raise _ _ refl)
    | apply (frames_out_of_fuel _ _ refl)
    | apply (frames_bind _ _ trans)
    | apply (frames_try_except _ _ trans)
    | apply (frames_when _ _ refl)
    | apply (frames_sleep _ _ refl)
    | apply (frames_deliver _ _ refl)
    | apply (frames_scan _ _ refl)
    | apply (frames_time_time _ _ refl)
    | apply (frames_get_channel_info _ _ refl trans)
    | apply (frames_send_admin_notification _ _ refl trans)
    | match goal with
      | |- forall _, _ => intro
      | |- frames _ _ (if ?b then _ else _) => destruct b
      | |- frames _ _ (match ?x with _ => _ end) => destruct x
      | |- frames _ _ (let '(_, _) := ?x in _) => destruct x
      | |- frames _ _ (add_arguments ?c) => destruct c; cbn [add_arguments]
      | |- frames _ _ (subscribers_of ?c) => destruct c; cbn [subscribers_of]
      end ].

Lemma frames_add_range_step (cfg : config) (E : env) (percent_completed : Z -> Z -> Z)
    (fuel : nat) (lo hi total added : Z) (i id : Z) :
  lo <= id <= hi ->
  frames (range_event lo hi (ADMIN_ID cfg)) keeps_rows
    (add_range_step cfg E percent_completed fuel total added (i, id)).
Proof.
  intros Hrange. unfold add_range_step.
  destruct (Z.eqb_spec id (ADMIN_ID cfg)) as [Hadmin|Hadmin];
    [apply (frames_ret _ _ keeps_rows_refl)|].
  unfold add_channel_to_db, progress_msg_edit.
  frames_go keeps_rows_refl keeps_rows_trans; try exact I.
  - match goal with H : fetch_event _ ?ev |- _ => destruct ev; simpl in H |- * end;
      try tauto. subst. split; assumption.
  - apply frames_execute; [exact I | apply keeps_rows_insert].
Qed.

(** X10. Whatever the platform answers, the bulk add over the range
    between [a] and [b] looks up only ids of that range, never the
    operator's id, executes only INSERT OR REPLACE statements, so that
    no row is lost, and sends nothing through the admin notifier. *)
Theorem X10_range_is_contained (cfg : config) (E : env)
    (percent_completed : Z -> Z -> Z) (fuel : nat) (a b : Z) :
  frames (range_event (Z.min a b) (Z.max a b) (ADMIN_ID cfg)) keeps_rows
    (add_range_command cfg E percent_completed fuel a b).
Proof.
  unfold add_range_command.
  set (lo := Z.min a b). set (hi := Z.max a b).
  assert (Hnorm : (if a >? b then (b, a) else (a, b)) = (lo, hi)).
  { subst lo hi. destruct (Z.gtb_spec a b); f_equal; lia. }
  rewrite Hnorm. unfold event_respond.
  apply (frames_try_except _ _ keeps_rows_trans);
    [|intros e; apply (frames_deliver _ _ keeps_rows_refl); exact I].
  apply (frames_bind _ _ keeps_rows_trans);
    [apply (frames_deliver _ _ keeps_rows_refl); exact I|]. intros _.
  apply (frames_bind _ _ keeps_rows_trans);
    [|intros added; apply (frames_deliver _ _ keeps_rows_refl); exact I].
  apply (frames_for_fold _ _ keeps_rows_refl keeps_rows_trans).
  intros added [i id] Hin. apply frames_add_range_step.
  apply In_enumerate_from in Hin. apply list_elem_of_In in Hin.
  unfold range in Hin. apply elem_of_seqZ in Hin. lia.
Qed.

Lemma add_range_step_split (cfg : config) (E : env) (percent_completed : Z -> Z -> Z)
    (fuel : nat) (total added i id : Z) :
  add_range_step cfg E percent_completed fuel total added (i, id) =
  if id =? ADMIN_ID cfg then ret added
  else
    bind (range_attempt E fuel added id)
      (fun added_count =>
         bind (when ((i mod 50 =? 0) || (i =? total - 1))
                 (progress_msg_edit E
                    (msg_range_progress total (percent_completed i total) i added_count)))
           (fun _ =>
              bind (when (i mod 10 =? 0) (asyncio_sleep (1 # 2)))
                (fun _ => ret added_count))).
Proof. reflexivity. Qed.

(** The counter returned by the [try] block is the counter it was given
    plus the number of statements the block executed; no exception
    leaves the block. *)
Lemma range_attempt_tally (E : env) (fuel : nat) (added id : Z) (w : world)
    (r : outcome Z) (w1 : world) :
  range_attempt E fuel added id w = (r, w1) ->
  exists evs,
    trace w1 = trace w ++ evs
    /\ match r with
       | Ret a => a = added + Z.of_nat (length (executed evs))
       | Raise _ => False
       | OutOfFuel => True
       end.
Proof.
  unfold range_attempt, try_except. unfold bind at 1.
  destruct (get_channel_info_frame E fuel (PeerId id) w) as (evs & Htr & _ & Hex & _).
  pose proof (never_raises_get_channel_info E fuel (PeerId id) w) as Hnr.
  destruct (get_channel_info E fuel (PeerId id) w) as [[[ci|]|e|] w0]; simpl in Htr, Hnr.
  - destruct ci as [i t a l n ent | p t err].
    + cbn [usable add_arguments]. unfold bind at 1. unfold ret at 1. unfold bind.
      rewrite add_channel_to_db_run. simpl. intros [= <- <-]. simpl.
      eexists (evs ++ [_]). rewrite Htr, <- app_assoc. split; [reflexivity|].
      rewrite executed_app, Hex. simpl. lia.
    + destruct (usable (ErrorInfo p t err)); simpl; intros [= <- <-];
        exists evs; (split; [exact Htr|]); rewrite Hex; simpl; lia.
  - simpl. intros [= <- <-]. exists evs. split; [exact Htr|]. rewrite Hex. simpl. lia.
  - exfalso. apply (Hnr e). reflexivity.
  - simpl. intros [= <- <-]. exists evs. split; [exact Htr|]. exact I.
Qed.

Lemma add_range_step_tally (cfg : config) (E : env) (percent_completed : Z -> Z -> Z)
    (fuel : nat) (total added : Z) (item : Z * Z) (w : world) (added' : Z) (w' : world) :
  add_range_step cfg E percent_completed fuel total added item w = (Ret added', w') ->
  exists evs,
    trace w' = trace w ++ evs
    /\ added' = added + Z.of_nat (length (executed evs)).
Proof.
  destruct item as [i id]. rewrite add_range_step_split.
  destruct (id =? ADMIN_ID cfg).
  { intros [= <- <-]. exists []. rewrite app_nil_r. simpl. split; [reflexivity|lia]. }
  unfold bind at 1.
  destruct (range_attempt E fuel added id w) as [[a|e|] w1] eqn:Hattempt;
    try discriminate.
  apply range_attempt_tally in Hattempt as (evs & Htr & ->).
  unfold bind, when, progress_msg_edit, deliver, asyncio_sleep, ret.
  destruct ((i mod 50 =? 0) || (i =? total - 1));
    [destruct (deliver_at E (tick w1)); [discriminate|]|];
    destruct (i mod 10 =? 0); intros [= <- <-]; simpl; rewrite Htr;
    rewrite <- ?app_assoc; eexists; (split; [reflexivity|]);
    rewrite ?executed_app; simpl; rewrite ?app_nil_r; reflexivity.
Qed.

Lemma range_loop_tally (cfg : config) (E : env) (percent_completed : Z -> Z -> Z)
    (fuel : nat) (total : Z) (items : list (Z * Z)) (added : Z) (w : world)
    (added' : Z) (w' : world) :
  for_fold items added (add_range_step cfg E percent_completed fuel total) w
  = (Ret added', w') ->
  exists evs,
    trace w' = trace w ++ evs
    /\ added' = added + Z.of_nat (length (executed evs)).
Proof.
  revert added w. induction items as [|item items IH]; intros added w.
  - intros [= <- <-]. exists []. rewrite app_nil_r. simpl. split; [reflexivity|lia].
  - cbn [for_fold]. unfold bind at 1.
    destruct (add_range_step cfg E percent_completed fuel total added item w)
      as [[a|e|] w1] eqn:Hstep; try discriminate.
    intros Hrest. apply add_range_step_tally in Hstep as (evs1 & Htr1 & Hc1).
    apply IH in Hrest as (evs2 & Htr2 & Hc2).
    exists (evs1 ++ evs2). rewrite Htr2, Htr1, <- app_assoc. split; [reflexivity|].
    rewrite executed_app, length_app. lia.
Qed.

Lemma range_loop_never_raises (cfg : config) (E : env) (percent_completed : Z -> Z -> Z)
    (fuel : nat) (total : Z) (items : list (Z * Z)) (added : Z) :
  (forall t, deliver_at E t = None) ->
  never_raises (for_fold items added (add_range_step cfg E percent_completed fuel total)).
Proof.
  intros Hdeliver. revert added. induction items as [|[i id] items IH]; intros added.
  - apply never_raises_ret.
  - cbn [for_fold]. apply never_raises_bind; [|intros a; apply IH].
    rewrite add_range_step_split.
    destruct (id =? ADMIN_ID cfg); [apply never_raises_ret|].
    apply never_raises_bind.
    { intros w e Hraise.
      destruct (range_attempt E fuel added id w) as [r w1] eqn:Hattempt.
      apply range_attempt_tally in Hattempt as (evs & _ & H).
      simpl in Hraise. subst r. exact H. }
    intros a.
    apply never_raises_bind.
    { apply never_raises_when. intros w e. unfold progress_msg_edit, deliver.
      rewrite Hdeliver. discriminate. }
    intros _. apply never_raises_bind; [|intros _; apply never_raises_ret].
    apply never_raises_when, never_raises_sleep.
Qed.

(** X11. When the messages of the range command are delivered and the
    command returns, its last message is the completion report, the
    total it states is the size of the range, and the number of
    channels it states as added is exactly the number of INSERT OR
    REPLACE statements the command executed, whatever the gateway
    answered for the single ids. *)
Theorem X11_range_report (cfg : config) (E : env) (percent_completed : Z -> Z -> Z)
    (fuel : nat) (a b : Z) (w : world) :
  (forall t, deliver_at E t = None) ->
  let run := add_range_command cfg E percent_completed fuel a b w in
  fst run = Ret tt ->
  exists pre,
    events_since w (snd run) =
    pre ++ [EvRespond
              (msg_range_complete (Z.abs (a - b) + 1)
                 (Z.of_nat (length (executed (events_since w (snd run))))))].
Proof.
  intros Hdeliver run.
  assert (Hrun : run = add_range_command cfg E percent_completed fuel a b w) by reflexivity.
  clearbody run. unfold add_range_command in Hrun.
  set (lo := Z.min a b) in *. set (hi := Z.max a b) in *.
  assert (Hnorm : (if a >? b then (b, a) else (a, b)) = (lo, hi)).
  { subst lo hi. destruct (Z.gtb_spec a b); f_equal; lia. }
  rewrite Hnorm in Hrun.
  replace (hi - lo + 1) with (Z.abs (a - b) + 1) in Hrun by (subst lo hi; lia).
  set (total := Z.abs (a - b) + 1) in *.
  unfold try_except, event_respond in Hrun. unfold bind at 1 in Hrun.
  rewrite (deliver_ok _ _ _ (Hdeliver _)) in Hrun. unfold bind at 1 in Hrun.
  set (w1 := call (EvRespond (msg_range_start total)) w) in *.
  pose proof (range_loop_never_raises cfg E percent_completed fuel total
                (enumerate (range lo (hi + 1))) 0 Hdeliver w1) as Hnr.
  destruct (for_fold (enumerate (range lo (hi + 1))) 0
              (add_range_step cfg E percent_completed fuel total) w1)
    as [[added|e|] w2] eqn:Hloop.
  - rewrite (deliver_ok _ _ _ (Hdeliver _)) in Hrun. intros _. subst run.
    apply range_loop_tally in Hloop as (evs & Htr & Hadded).
    assert (Hsince : events_since w (call (EvRespond (msg_range_complete total added)) w2)
                     = ([EvRespond (msg_range_start total)] ++ evs)
                       ++ [EvRespond (msg_range_complete total added)]).
    { apply events_since_app. cbn [trace call]. rewrite Htr. subst w1. cbn [trace call].
      rewrite <- !app_assoc. reflexivity. }
    cbn [snd]. rewrite Hsince. eexists. f_equal. f_equal. f_equal.
    rewrite !executed_app. simpl. rewrite app_nil_r. f_equal. lia.
  - exfalso. apply (Hnr e). reflexivity.
  - subst run. simpl. discriminate.
Qed.

Lemma X11_range_report_witness :
  exists pre,
    events_since Scenario.tracked
      (snd (add_range_command Scenario.cfg (Scenario.without_102 200 Scenario.now)
              Scenario.percent 1 104 100 Scenario.tracked))
    = pre ++ [EvRespond (msg_range_complete 5 4)].
Proof.
  destruct (X11_range_report Scenario.cfg (Scenario.without_102 200 Scenario.now)
              Scenario.percent 1 104 100 Scenario.tracked) as (pre & Hevs).
  - intros t. reflexivity.
  - vm_compute. reflexivity.
  - exists pre. etransitivity; [exact Hevs|]. f_equal.
Defined.

(** ** The refresh, in general *)

Lemma same_channels_refl (t : gmap Z row) : same_channels t t.
Proof. intros id. destruct (t !! id); auto. Qed.

Lemma same_channels_trans (t1 t2 t3 : gmap Z row) :
  same_channels t1 t2 -> same_channels t2 t3 -> same_channels t1 t3.
Proof.
  intros H12 H23 id. specialize (H12 id). specialize (H23 id).
  destruct (t1 !! id), (t2 !! id), (t3 !! id); try tauto.
  destruct H12 as (? & ? & ?), H23 as (? & ? & ?). repeat split; congruence.
Qed.

Lemma same_channels_update (n x id : Z) (t : gmap Z row) :
  same_channels t (fst (execute (Update [SetSubscribers n; SetLastChecked x] id) t)).
Proof.
  intros k. simpl. destruct (t !! id) as [r|] eqn:Hrow; simpl.
  - destruct (decide (id = k)) as [->|Hne].
    + rewrite lookup_insert_eq, Hrow. auto.
    + rewrite lookup_insert_ne by exact Hne. destruct (t !! k); auto.
  - destruct (t !! k); auto.
Qed.

Lemma selection_subset (E : env) (l : list (Z * row)) (t : nat) (c : Z * row) :
  In c (selection E t l) -> In c l.
Proof.
  revert t. induction l as [|d l IH]; intros t; simpl; [tauto|].
  destruct (stale (clock_at E t) d); simpl; intros H.
  - destruct H as [->|H]; [left; reflexivity | right; eapply IH; exact H].
  - right. eapply IH. exact H.
Qed.

Lemma frames_refresh_one (cfg : config) (E : env) (fuel : nat) (t : gmap Z row)
    (idx : Z) (channel : Z * row) :
  is_Some (t !! fst channel) ->
  frames (refresh_event t) same_channels (refresh_one cfg E fuel (idx, channel)).
Proof.
  intros Hstored. unfold refresh_one, update_channel_subscribers.
  frames_go same_channels_refl same_channels_trans; try exact I.
  - match goal with H : fetch_event _ ?ev |- _ => destruct ev; simpl in H |- * end;
      try tauto. subst. exact Hstored.
  - apply frames_execute; [exact Hstored | apply same_channels_update].
Qed.

Lemma never_raises_refresh_one (cfg : config) (E : env) (fuel : nat) (item : Z * (Z * row)) :
  never_raises (refresh_one cfg E fuel item).
Proof.
  destruct item as [idx channel]. unfold refresh_one.
  apply never_raises_try_except. intros e.
  destruct e; first [apply never_raises_sleep | apply never_raises_ret].
Qed.

Lemma refresh_subscribers_contained (cfg : config) (E : env) (fuel : nat) (w : world) :
  let run := refresh_subscribers cfg E fuel w in
  (forall e, fst run <> Raise e)
  /\ (exists evs, trace (snd run) = trace w ++ evs /\ Forall (refresh_event (db w)) evs)
  /\ same_channels (db w) (db (snd run)).
Proof.
  intros run.
  assert (Hrun : run =
            for_each (enumerate (selection E (tick w) (map_to_list (db w))))
              (refresh_one cfg E fuel)
              (mkWorld (db w) (tick w + length (map_to_list (db w)))%nat (trace w))).
  { subst run. unfold refresh_subscribers, bind, get_all_channels_from_db.
    rewrite channels_to_update_of_run. reflexivity. }
  rewrite Hrun. split.
  - apply never_raises_for_each. apply never_raises_refresh_one.
  - assert (Hframes : frames (refresh_event (db w)) same_channels
                        (for_each (enumerate (selection E (tick w) (map_to_list (db w))))
                           (refresh_one cfg E fuel))).
    { apply (frames_for_each _ _ same_channels_refl same_channels_trans).
      intros [idx channel] Hin. apply frames_refresh_one.
      apply In_enumerate_from, selection_subset in Hin.
      destruct channel as [id r]. apply list_elem_of_In, elem_of_map_to_list in Hin.
      simpl. eauto. }
    destruct (Hframes (mkWorld (db w) (tick w + length (map_to_list (db w)))%nat (trace w)))
      as (evs & Htr & Hevs & Hdb).
    split; [exists evs; split; [exact Htr | exact Hevs] | exact Hdb].
Qed.

(** X13. Whatever the platform answers, the subscriber refresh lets no
    exception out, so one channel cannot end the batch.  It looks up
    only ids stored when it starts and executes only UPDATEs of count
    and [last_checked] on such ids: it adds no row, removes none, and
    leaves title, access hash and link of every row as they were. *)
Theorem X13_refresh_is_contained (cfg : config) (E : env) (fuel : nat) (w : world) :
  let run := refresh_subscribers cfg E fuel w in
  (forall e, fst run <> Raise e)
  /\ (exists evs, trace (snd run) = trace w ++ evs /\ Forall (refresh_event (db w)) evs)
  /\ same_channels (db w) (db (snd run)).
Proof. apply refresh_subscribers_contained. Qed.

(** ** The reconciliation and the cycle, in general *)

Lemma always_refl (t : gmap Z row) : (fun _ _ : gmap Z row => True) t t.
Proof. exact I. Qed.

Lemma always_trans (t1 t2 t3 : gmap Z row) :
  (fun _ _ : gmap Z row => True) t1 t2 -> (fun _ _ : gmap Z row => True) t2 t3 ->
  (fun _ _ : gmap Z row => True) t1 t3.
Proof. intros _ _. exact I. Qed.

Lemma frames_process_new (cfg : config) (E : env) (fuel : nat) (dialogs : list entity)
    (t : gmap Z row) (id : Z) :
  id ∈ current_channels_of dialogs -> t !! id = None ->
  frames (reconcile_event dialogs t) (fun _ _ => True) (process_new cfg E fuel dialogs id).
Proof.
  intros Hlive Hfresh. unfold process_new.
  destruct (List.find (fun d => e_id d =? id) dialogs) as [d|] eqn:Hfind;
    [|apply (frames_ret _ _ always_refl)].
  apply find_some in Hfind as [Hin Hid]. apply Z.eqb_eq in Hid.
  unfold add_channel_to_db.
  frames_go always_refl always_trans; try exact I.
  - match goal with H : fetch_event _ ?ev |- _ => destruct ev; simpl in H |- * end;
      try tauto. subst. auto.
  - apply frames_execute; [exact I | intros; exact I].
Qed.

Lemma frames_process_removed (cfg : config) (E : env) (dialogs : list entity)
    (t : gmap Z row) (db_map : gmap Z (Z * row)) (id : Z) :
  is_Some (t !! id) -> id ∉ current_channels_of dialogs ->
  frames (reconcile_event dialogs t) (fun _ _ => True) (process_removed cfg E db_map id).
Proof.
  intros Hstored Hgone. unfold process_removed, remove_channel_from_db.
  frames_go always_refl always_trans; try exact I.
  apply frames_execute; [split; assumption | intros; exact I].
Qed.

Lemma reconcile_membership_contained (cfg : config) (E : env) (fuel : nat)
    (dialogs : list entity) (w : world) :
  exists evs,
    trace (snd (reconcile_membership cfg E fuel dialogs w)) = trace w ++ evs
    /\ Forall (reconcile_event dialogs (db w)) evs.
Proof.
  assert (Hframes :
    frames (reconcile_event dialogs (db w)) (fun _ _ => True)
      (bind (for_each (elements (new_channels_of dialogs (map_to_list (db w))))
               (process_new cfg E fuel dialogs))
         (fun _ => for_each (elements (removed_channels_of dialogs (map_to_list (db w))))
                     (process_removed cfg E (dict_by_id (map_to_list (db w))))))).
  { apply (frames_bind _ _ always_trans); [|intros _];
      apply (frames_for_each _ _ always_refl always_trans); intros id Hin;
      apply list_elem_of_In, elem_of_elements in Hin.
    - unfold new_channels_of in Hin. rewrite db_ids_of_scan in Hin.
      apply elem_of_difference in Hin as [Hlive Hfresh].
      apply frames_process_new; [exact Hlive|]. apply not_elem_of_dom. exact Hfresh.
    - unfold removed_channels_of in Hin. rewrite db_ids_of_scan in Hin.
      apply elem_of_difference in Hin as [Hstored Hgone].
      apply frames_process_removed; [|exact Hgone]. apply elem_of_dom. exact Hstored. }
  destruct (Hframes w) as (evs & Htr & Hevs & _).
  exists evs. split; [exact Htr | exact Hevs].
Qed.

(** X14. Whatever the platform answers, a reconciliation looks up only
    dialogs whose id is live and was not stored when it started, never a
    channel that is already tracked, and the only DELETEs it executes
    are for ids that were stored and are no longer live. *)
Theorem X14_reconcile_is_contained (cfg : config) (E : env) (fuel : nat)
    (dialogs : list entity) (w : world) :
  exists evs,
    trace (snd (reconcile_membership cfg E fuel dialogs w)) = trace w ++ evs
    /\ Forall (reconcile_event dialogs (db w)) evs.
Proof. apply reconcile_membership_contained. Qed.

Lemma trace_grows_reconcile (cfg : config) (E : env) (fuel : nat) (dialogs : list entity) :
  frames (fun _ => True) (fun _ _ => True) (reconcile_membership cfg E fuel dialogs).
Proof.
  intros w. destruct (reconcile_membership_contained cfg E fuel dialogs w) as (evs & Htr & _).
  exists evs. split; [exact Htr|]. split; [|exact I].
  apply Forall_forall. intros; exact I.
Qed.

Lemma trace_grows_refresh (cfg : config) (E : env) (fuel : nat) :
  frames (fun _ => True) (fun _ _ => True) (refresh_subscribers cfg E fuel).
Proof.
  intros w. destruct (refresh_subscribers_contained cfg E fuel w) as (_ & (evs & Htr & _) & _).
  exists evs. split; [exact Htr|]. split; [|exact I].
  apply Forall_forall. intros; exact I.
Qed.

Lemma trace_grows_poll_body (cfg : config) (E : env) (fuel : nat) :
  frames (fun _ => True) (fun _ _ => True)
    (try_except
       (bind (client_get_dialogs E)
          (fun dialogs =>
             bind (reconcile_membership cfg E fuel dialogs)
               (fun _ => refresh_subscribers cfg E fuel)))
       (fun e =>
          match e with
          | FloodWaitError seconds => asyncio_sleep (inject_Z seconds)
          | _ => ret tt
          end)).
Proof.
  apply (frames_try_except _ _ always_trans).
  - apply (frames_bind _ _ always_trans).
    + apply (frames_external _ _ always_refl EvGetDialogs (fun w => get_dialogs_at E (tick w))).
      exact I.
    + intros dialogs. apply (frames_bind _ _ always_trans);
        [apply trace_grows_reconcile | intros _; apply trace_grows_refresh].
  - intros e. destruct e;
      first [apply (frames_sleep _ _ always_refl); exact I | apply (frames_ret _ _ always_refl)].
Qed.

Lemma bind_sleep_last {A} (m : M A) (d : Q) (w : world) :
  frames (fun _ => True) (fun _ _ => True) m ->
  fst (bind m (fun _ => asyncio_sleep d) w) = Ret tt ->
  exists pre,
    events_since w (snd (bind m (fun _ => asyncio_sleep d) w)) = pre ++ [EvSleep d].
Proof.
  intros Hm. unfold bind. destruct (Hm w) as (evs & Htr & _).
  destruct (m w) as [[a|e|] w1]; simpl in *; try discriminate.
  intros _. exists evs. apply events_since_app. simpl. rewrite Htr, app_assoc. reflexivity.
Qed.

(** X12. A poll cycle lets no exception out, whatever goes wrong in
    it, and a cycle that returns has as its last act the sleep of
    POLLING_INTERVAL seconds: the loop of [poll_channels] is never left
    and never spins without sleeping. *)
Theorem X12_cycle_survives (cfg : config) (E : env) (fuel : nat) (w : world) :
  (forall e, fst (poll_cycle cfg E fuel w) <> Raise e)
  /\ (fst (poll_cycle cfg E fuel w) = Ret tt ->
      exists pre,
        events_since w (snd (poll_cycle cfg E fuel w))
        = pre ++ [EvSleep (inject_Z (POLLING_INTERVAL cfg))]).
Proof.
  unfold poll_cycle. split.
  - apply never_raises_bind; [|intros _; apply never_raises_sleep].
    apply never_raises_try_except. intros e.
    destruct e; first [apply never_raises_sleep | apply never_raises_ret].
  - apply bind_sleep_last. apply trace_grows_poll_body.
Qed.

(** X15. When the dialog listing itself fails, the cycle touches nothing:
    no lookup, no statement, no notification; after a FloodWaitError it
    sleeps the seconds asked for, and in every case it then sleeps
    POLLING_INTERVAL. *)
Theorem X15_dialogs_unavailable (cfg : config) (E : env) (fuel : nat) (e : exn) (w : world) :
  get_dialogs_at E (tick w) = inl e ->
  let run := poll_cycle cfg E fuel w in
  fst run = Ret tt
  /\ db (snd run) = db w
  /\ events_since w (snd run) =
     EvGetDialogs
     :: match e with
        | FloodWaitError seconds => [EvSleep (inject_Z seconds)]
        | _ => []
        end
     ++ [EvSleep (inject_Z (POLLING_INTERVAL cfg))].
Proof.
  intros Hfail run.
  assert (Hrun : run =
            match e with
            | FloodWaitError seconds =>
                (Ret tt, asleep (inject_Z (POLLING_INTERVAL cfg))
                           (asleep (inject_Z seconds) (call EvGetDialogs w)))
            | _ => (Ret tt, asleep (inject_Z (POLLING_INTERVAL cfg)) (call EvGetDialogs w))
            end).
  { subst run. unfold poll_cycle, bind, try_except, client_get_dialogs, external.
    rewrite Hfail. destruct e; reflexivity. }
  rewrite Hrun. destruct e; since; repeat split; reflexivity.
Qed.

Lemma X12_cycle_survives_witness :
  exists pre,
    events_since Scenario.tracked
      (snd (poll_cycle Scenario.cfg (Scenario.member_of_5 301 Scenario.now) 1
              Scenario.tracked))
    = pre ++ [EvSleep (inject_Z 300)].
Proof.
  apply (proj2 (X12_cycle_survives Scenario.cfg (Scenario.member_of_5 301 Scenario.now) 1
                  Scenario.tracked)).
  vm_compute. reflexivity.
Defined.

Lemma X15_dialogs_unavailable_witness :
  events_since Scenario.tracked
    (snd (poll_cycle Scenario.cfg Cases.dialogs_limited 1 Scenario.tracked))
  = [EvGetDialogs; EvSleep (inject_Z 11); EvSleep (inject_Z 300)].
Proof.
  apply (X15_dialogs_unavailable Scenario.cfg Cases.dialogs_limited 1 (FloodWaitError 11)
           Scenario.tracked).
  reflexivity.
Defined.

(** ** The writers, as a user sees them *)





(** ** The list of tracked channels *)

Lemma insert_by_subscribers_perm (c : channel_row) (l : list channel_row) :
  insert_by_subscribers c l ≡ₚ c :: l.
Proof.
  induction l as [|d l IH]; simpl; [reflexivity|].
  destruct (r_subscribers (snd d) <=? r_subscribers (snd c)); [reflexivity|].
  rewrite IH. apply perm_swap.
Qed.

Lemma sorted_by_subscribers_perm (channels : list channel_row) :
  sorted_by_subscribers channels ≡ₚ channels.
Proof.
  induction channels as [|c l IH]; simpl; [reflexivity|].
  rewrite insert_by_subscribers_perm. rewrite IH. reflexivity.
Qed.

Lemma insert_by_subscribers_descending (c : channel_row) (l : list channel_row) :
  StronglySorted no_fewer l -> StronglySorted no_fewer (insert_by_subscribers c l).
Proof.
  induction l as [|d l IH]; intros Hsorted; simpl.
  - constructor; constructor.
  - apply StronglySorted_inv in Hsorted as [Hl Hd].
    destruct (Z.leb_spec (r_subscribers (snd d)) (r_subscribers (snd c))) as [Hle|Hgt].
    + constructor; [constructor; assumption|].
      constructor; [exact Hle|].
      eapply Forall_impl; [exact Hd|]. unfold no_fewer. intros x Hx. simpl in Hx. lia.
    + constructor; [apply IH; exact Hl|].
      rewrite insert_by_subscribers_perm. constructor; [|exact Hd].
      unfold no_fewer. lia.
Qed.

Lemma sorted_by_subscribers_descending (channels : list channel_row) :
  StronglySorted no_fewer (sorted_by_subscribers channels).
Proof.
  induction channels as [|c l IH]; simpl; [constructor|].
  apply insert_by_subscribers_descending. exact IH.
Qed.

Lemma insert_by_subscribers_stable (k : Z) (c : channel_row) (l : list channel_row) :
  List.filter (with_count k) (insert_by_subscribers c l)
  = List.filter (with_count k) (c :: l).
Proof.
  induction l as [|d l IH]; [reflexivity|].
  cbn [insert_by_subscribers].
  destruct (Z.leb_spec (r_subscribers (snd d)) (r_subscribers (snd c))) as [Hle|Hgt];
    [reflexivity|].
  cbn [List.filter] in *. rewrite IH. unfold with_count.
  destruct (Z.eqb_spec (r_subscribers (snd c)) k) as [Hc|Hc];
    destruct (Z.eqb_spec (r_subscribers (snd d)) k) as [Hd|Hd]; try reflexivity.
  lia.
Qed.

Lemma sorted_by_subscribers_stable (k : Z) (channels : list channel_row) :
  List.filter (with_count k) (sorted_by_subscribers channels)
  = List.filter (with_count k) channels.
Proof.
  induction channels as [|c l IH]; [reflexivity|].
  cbn [sorted_by_subscribers fold_right].
  rewrite insert_by_subscribers_stable. cbn [List.filter].
  fold (sorted_by_subscribers l). rewrite IH. reflexivity.
Qed.

(** X19. The list of [/list_channels] is sorted as Python's [sorted]
    with [reverse=True] sorts: the sorted rows are the stored rows, each
    once; no row has more subscribers than a row before it; and rows
    with the same count keep the order they had. *)
Theorem X19_sorted_by_subscribers (channels : list channel_row) :
  sorted_by_subscribers channels ≡ₚ channels
  /\ StronglySorted no_fewer (sorted_by_subscribers channels)
  /\ forall k,
       List.filter (with_count k) (sorted_by_subscribers channels)
       = List.filter (with_count k) channels.
Proof.
  split; [apply sorted_by_subscribers_perm|].
  split; [apply sorted_by_subscribers_descending|].
  intros k. apply sorted_by_subscribers_stable.
Qed.








(** ** The status *)






(** ** The add command *)

Lemma frames_client_join {P : event -> Prop} {R : gmap Z row -> gmap Z row -> Prop}
    (refl : forall t, R t t) (join_at : nat -> option exn) :
  frames P R (client_join join_at).
Proof.
  intros w. exists []. unfold client_join.
  destruct (join_at (tick w)); simpl; rewrite app_nil_r; auto.
Qed.

(** X22. Whatever the platform answers, [/add] looks up only the id it
    was given, executes only INSERT OR REPLACE statements, so that no
    row is lost, and sends nothing through the admin notifier: it only
    responds to the command. *)
Theorem X22_add_is_contained (cfg : config) (E : env) (has_join : entity -> bool)
    (join_at : nat -> option exn) (fuel : nat) (channel_id : Z) :
  frames (add_event channel_id) keeps_rows
    (add_channel_command cfg E has_join join_at fuel channel_id).
Proof.
  unfold add_channel_command, event_respond, add_channel_to_db.
  frames_go keeps_rows_refl keeps_rows_trans; try exact I.
  all: try (apply (frames_client_join keeps_rows_refl)).
  all: try (apply frames_execute; [exact I | apply keeps_rows_insert]).
  all: match goal with H : fetch_event _ ?ev |- _ => destruct ev; simpl in H |- * end;
    tauto.
Qed.



(** X24. When the lookup of the id fails with an exception that is not
    a rate limit and whose text is not empty, or answers with something
    that is not a channel, [/add] writes nothing and answers "Failed to
    add channel:" followed by the error text of the fetch, respectively
    by "Invalid channel". *)
Theorem X24_add_command_failure (cfg : config) (E : env) (has_join : entity -> bool)
    (join_at : nat -> option exn) (fuel : nat) (channel_id : Z) (w : world) :
  (forall t, deliver_at E t = None) ->
  match get_entity_at E (S (tick w)) (PeerId channel_id) with
  | inl e => (forall s, e <> FloodWaitError s) /\ e <> OtherError ""
  | inr entity => e_is_channel entity = false
  end ->
  let run := add_channel_command cfg E has_join join_at (S fuel) channel_id w in
  fst run = Ret tt
  /\ db (snd run) = db w
  /\ events_since w (snd run)
     = [EvRespond ("Adding channel ID: `" +:+ str channel_id +:+ "`...");
        EvGetEntity (PeerId channel_id);
        EvRespond
          (CROSS +:+ " Failed to add channel: " +:+
           match get_entity_at E (S (tick w)) (PeerId channel_id) with
           | inl e => failure_reason (Some (error_info (PeerId channel_id) e))
           | inr _ => "Invalid channel"
           end)].
Proof.
  intros Hdeliver Hanswer run.
  assert (Hrun : exists t,
    run = (Ret tt,
           mkWorld (db w) t
             (trace w ++
              [EvRespond ("Adding channel ID: `" +:+ str channel_id +:+ "`...");
               EvGetEntity (PeerId channel_id);
               EvRespond
                 (CROSS +:+ " Failed to add channel: " +:+
                  match get_entity_at E (S (tick w)) (PeerId channel_id) with
                  | inl e => failure_reason (Some (error_info (PeerId channel_id) e))
                  | inr _ => "Invalid channel"
                  end)]))).
  { subst run. unfold add_channel_command, try_except, event_respond.
    unfold bind at 1. rewrite (deliver_ok _ _ _ (Hdeliver _)).
    unfold bind at 1. rewrite get_channel_info_S. cbn [tick call].
    destruct (get_entity_at E (S (tick w)) (PeerId channel_id)) as [e | entity].
    - destruct Hanswer as [Hflood Hempty].
      assert (Husable : usable (error_info (PeerId channel_id) e) = false).
      { destruct (usable (error_info (PeerId channel_id) e)) eqn:Hu; [|reflexivity].
        apply usable_error_info_iff in Hu; [contradiction | exact Hflood]. }
      destruct e; try (exfalso; eapply Hflood; reflexivity);
        unfold bind, ret; rewrite Husable;
        rewrite (deliver_ok _ _ _ (Hdeliver _)); unfold call; cbn [db tick trace];
        rewrite <- !app_assoc; cbn [app]; eexists; reflexivity.
    - rewrite Hanswer. unfold bind, ret.
      rewrite (deliver_ok _ _ _ (Hdeliver _)). unfold call. cbn [db tick trace].
      rewrite <- !app_assoc. cbn [app]. eexists. reflexivity. }
  destruct Hrun as (t & ->). cbn [fst snd db].
  split; [reflexivity|]. split; [reflexivity|].
  apply events_since_app. reflexivity.
Qed.

Lemma X24_add_command_failure_witness :
  let run :=
    add_channel_command Scenario.cfg (Scenario.private Scenario.now)
      (fun _ => true) (fun _ => None) 1 5 Scenario.tracked in
  fst run = Ret tt /\ db (snd run) = db Scenario.tracked.
Proof.
  pose proof (X24_add_command_failure Scenario.cfg (Scenario.private Scenario.now)
                (fun _ => true) (fun _ => None) 0 5 Scenario.tracked
                (fun _ => eq_refl)) as H.
  cbv zeta in H. destruct H as (Hret & Hdb & _).
  - vm_compute. split; [intros s Hs; discriminate Hs | intros Hs; discriminate Hs].
  - split; [exact Hret | exact Hdb].
Defined.

(** ** The chat event handler, whatever happens *)

Lemma keeps_rows_but_refl (id : Z) (t : gmap Z row) : keeps_rows_but id t t.
Proof. intros k _ H. exact H. Qed.

Lemma keeps_rows_but_trans (id : Z) (t1 t2 t3 : gmap Z row) :
  keeps_rows_but id t1 t2 -> keeps_rows_but id t2 t3 -> keeps_rows_but id t1 t3.
Proof. intros H12 H23 k Hk H. apply H23, H12; assumption. Qed.

Lemma keeps_rows_but_insert (id k : Z) (cols : list assignment) (t : gmap Z row) :
  keeps_rows_but id t (fst (execute (InsertOrReplace k cols) t)).
Proof. intros j _ Hj. apply keeps_rows_insert. exact Hj. Qed.

Lemma keeps_rows_but_delete (id : Z) (t : gmap Z row) :
  keeps_rows_but id t (fst (execute (Delete id) t)).
Proof.
  intros k Hk Hrow. simpl. destruct (t !! id); simpl; [|exact Hrow].
  rewrite lookup_delete_ne by congruence. exact Hrow.
Qed.

(** X25. Whatever the platform answers, the chat event handler looks up
    only the chat of the event, deletes only the row of that chat, so
    that no other row is lost, notifies only the operator and never
    responds in a chat. *)
Theorem X25_handler_is_contained (cfg : config) (E : env) (fuel : nat)
    (event : chat_action) :
  frames (handler_event (ADMIN_ID cfg) (ev_chat_id event))
    (keeps_rows_but (ev_chat_id event))
    (handle_chat_action cfg E fuel event).
Proof.
  pose proof (keeps_rows_but_refl (ev_chat_id event)) as Hrefl.
  pose proof (keeps_rows_but_trans (ev_chat_id event)) as Htrans.
  assert (Hme : frames (handler_event (ADMIN_ID cfg) (ev_chat_id event))
                  (keeps_rows_but (ev_chat_id event)) (client_get_me E)).
  { apply (frames_external _ _ Hrefl EvGetMe (fun w => get_me_at E (tick w))). exact I. }
  unfold handle_chat_action, add_channel_to_db, remove_channel_from_db.
  apply (frames_bind _ _ Htrans); [exact Hme|]. intros me0.
  destruct (ev_user_id event =? me0); [|apply (frames_ret _ _ Hrefl)].
  apply (frames_bind _ _ Htrans); [exact Hme|]. intros me.
  clear Hme. frames_go Hrefl Htrans; try exact I; try reflexivity.
  - match goal with H : fetch_event _ ?ev |- _ => destruct ev; simpl in H |- * end; tauto.
  - apply frames_execute; [exact I | apply keeps_rows_but_insert].
  - apply frames_execute; [reflexivity | apply keeps_rows_but_delete].
Qed.

(** ** The loop *)

Lemma never_raises_poll_cycle (cfg : config) (E : env) (fuel : nat) :
  never_raises (poll_cycle cfg E fuel).
Proof.
  unfold poll_cycle. apply never_raises_bind; [|intros _; apply never_raises_sleep].
  apply never_raises_try_except. intros e.
  destruct e; first [apply never_raises_sleep | apply never_raises_ret].
Qed.

Lemma polling_sleeps_app (cfg : config) (a b : list event) :
  polling_sleeps cfg (a ++ b) = (polling_sleeps cfg a + polling_sleeps cfg b)%nat.
Proof. unfold polling_sleeps. rewrite slept_app, List.filter_app, length_app. reflexivity. Qed.

Lemma frames_poll_cycle (cfg : config) (E : env) (fuel : nat) :
  frames (fun _ => True) (fun _ _ => True) (poll_cycle cfg E fuel).
Proof.
  unfold poll_cycle. apply (frames_bind _ _ always_trans);
    [apply trace_grows_poll_body | intros _; apply (frames_sleep _ _ always_refl); exact I].
Qed.

Lemma poll_cycle_sleeps (cfg : config) (E : env) (fuel : nat) (w : world) :
  fst (poll_cycle cfg E fuel w) = Ret tt ->
  exists evs,
    trace (snd (poll_cycle cfg E fuel w)) = trace w ++ evs
    /\ (1 <= polling_sleeps cfg evs)%nat.
Proof.
  intros Hret.
  destruct (bind_sleep_last _ (inject_Z (POLLING_INTERVAL cfg)) w
              (trace_grows_poll_body cfg E fuel) Hret) as (pre & Hpre).
  fold (poll_cycle cfg E fuel) in Hpre.
  destruct (frames_poll_cycle cfg E fuel w) as (evs & Htr & _).
  exists evs. split; [exact Htr|].
  rewrite (events_since_app _ _ _ Htr) in Hpre. subst evs.
  rewrite polling_sleeps_app. unfold polling_sleeps at 2. simpl.
  rewrite (proj2 (Qeq_bool_iff _ _) (Qeq_refl _)). simpl. lia.
Qed.

Lemma poll_channels_sleeps (cfg : config) (E : env) (cycles fuel : nat) (w : world) :
  fst (poll_channels cfg E cycles fuel w) = Ret tt ->
  exists evs,
    trace (snd (poll_channels cfg E cycles fuel w)) = trace w ++ evs
    /\ (cycles <= polling_sleeps cfg evs)%nat.
Proof.
  revert w. induction cycles as [|cycles IH]; intros w.
  - intros _. exists []. simpl. rewrite app_nil_r. split; [reflexivity | lia].
  - cbn [poll_channels]. unfold bind.
    pose proof (poll_cycle_sleeps cfg E fuel w) as Hcycle.
    destruct (poll_cycle cfg E fuel w) as [[[]|e|] w1]; cbn [fst snd] in *;
      try (intros H; discriminate H).
    intros Hret. destruct (Hcycle eq_refl) as (evs1 & Htr1 & Hone).
    destruct (IH w1 Hret) as (evs2 & Htr2 & Hrest).
    exists (evs1 ++ evs2). rewrite Htr2, Htr1, app_assoc. split; [reflexivity|].
    rewrite polling_sleeps_app. lia.
Qed.

(** X26. The loop of [poll_channels] is never left by an exception, and
    it never spins: [cycles] turns that run to their end have slept
    POLLING_INTERVAL seconds at least [cycles] times. *)
Theorem X26_loop_keeps_running (cfg : config) (E : env) (cycles fuel : nat) (w : world) :
  (forall e, fst (poll_channels cfg E cycles fuel w) <> Raise e)
  /\ (fst (poll_channels cfg E cycles fuel w) = Ret tt ->
      (cycles <= polling_sleeps cfg
                   (events_since w (snd (poll_channels cfg E cycles fuel w))))%nat).
Proof.
  split.
  - revert w. induction cycles as [|cycles IH]; intros w e; [discriminate|].
    revert w e. cbn [poll_channels].
    apply never_raises_bind; [apply never_raises_poll_cycle | intros _ w e; apply IH].
  - intros Hret. destruct (poll_channels_sleeps cfg E cycles fuel w Hret) as (evs & Htr & Hn).
    rewrite (events_since_app _ _ _ Htr). exact Hn.
Qed.

Lemma X26_loop_keeps_running_witness :
  (3 <= polling_sleeps Scenario.cfg
          (events_since Scenario.tracked
             (snd (poll_channels Scenario.cfg (Scenario.member_of_5 301 Scenario.now) 3 1
                     Scenario.tracked))))%nat.
Proof.
  apply (proj2 (X26_loop_keeps_running Scenario.cfg (Scenario.member_of_5 301 Scenario.now)
                  3 1 Scenario.tracked)).
  vm_compute. reflexivity.
Defined.
